(** * cfn_dbuser_provider: the PostgreSQL role provider, embedded and verified

    The development follows [src/cfn_dbuser_provider.py].  Events are JSON
    documents, held as Python values; the descriptor class [PostgresDBUser]
    is a dictionary with a [connection] attribute; exceptions are an error
    monad; the psycopg2 driver is a record of operations over an abstract
    world, and every statement handed to [cursor.execute] is logged.

    The module is Python 2 code (it reads [e.message]), so the builtins
    behave as in Python 2.7. The strings of an event are unicode strings, a
    character being its code from 0 to 255; a number is an [int]; and the
    nested [Database] dictionary that [add_defaults] updates in place is
    followed through the descriptor only: no handler reads the event's own
    copy again. *)

From stdpp Require Import gmap strings list pretty.
From Stdlib Require Import ZArith String Ascii.

Set Warnings "-register-all".
Local Open Scope string_scope.
Local Open Scope Z_scope.

(** ** Python values *)

(** The values a decoded JSON event is made of. *)
Inductive pyval : Type :=
  | PNone
  | PBool (b : bool)
  | PInt (z : Z)
  | PStr (s : string)
  | PList (l : list pyval)
  | PDict (d : gmap string pyval).

Abbreviation dict := (gmap string pyval).

(** ** Exceptions *)

Inductive exn_class : Type :=
  | ValueError | TypeError | KeyError | NameError | AttributeError
  | UnicodeEncodeError | DriverError.

(** An exception instance with the [message] attribute the handlers read. *)
Record exn : Type := Exn { exn_cls : exn_class; message : string }.

(** A computation that returns or raises. *)
Definition res (A : Type) : Type := exn + A.

Definition ret {A} (a : A) : res A := inr a.
Definition raise {A} (c : exn_class) (msg : string) : res A := inl (Exn c msg).

Definition rbind {A B} (m : res A) (k : A -> res B) : res B :=
  match m with
  | inl e => inl e
  | inr a => k a
  end.

Notation "'let!' x ':=' m 'in' k" := (rbind m (fun x => k))
  (at level 10, x name, m at level 100, k at level 200).
Notation "m ';;!' k" := (rbind m (fun _ => k))
  (at level 100, k at level 200, right associativity).

(** ** Strings *)

(** The double quote character, code 34. *)
Definition dquote : string :=
  String (Ascii false true false false false true false false) EmptyString.

(** [str.lower] on one ASCII character. *)
Definition lower_ascii (c : ascii) : ascii :=
  let n := nat_of_ascii c in
  if (65 <=? n)%nat && (n <=? 90)%nat then ascii_of_nat (n + 32) else c.

(** [str.lower]. *)
Fixpoint lower (s : string) : string :=
  match s with
  | EmptyString => EmptyString
  | String c r => String (lower_ascii c) (lower r)
  end.

(** A character of the ASCII range, below 128. *)
Definition is_ascii (c : ascii) : bool := (nat_of_ascii c <? 128)%nat.

(** A string the [ascii] codec can encode. *)
Fixpoint ascii_only (s : string) : bool :=
  match s with
  | EmptyString => true
  | String c r => is_ascii c && ascii_only r
  end.

(** [needle in hay] on strings: substring test. *)
Fixpoint str_contains (needle hay : string) : bool :=
  String.prefix needle hay ||
  match hay with
  | EmptyString => false
  | String _ r => str_contains needle r
  end.

(** ** What the interpreter supplies

    The text Python prints inside the brackets of a list or a dictionary,
    the order in which a dictionary yields its keys, and the object a bound
    module-level name holds are left to the interpreter. *)
Record interp : Type := Interp {
  repr_items : list pyval -> string;
  repr_pairs : gmap string pyval -> string;
  key_order : gmap string pyval -> list string;
  global_value : string -> pyval
}.

Section Descriptor.

Variable py : interp.

(** What a [%s] conversion prints for [v]; a unicode string goes through as
    it is. *)
Definition py_str (v : pyval) : string :=
  match v with
  | PNone => "None"
  | PBool true => "True"
  | PBool false => "False"
  | PInt z => pretty z
  | PStr s => s
  | PList l => "[" +:+ repr_items py l +:+ "]"
  | PDict d => "{" +:+ repr_pairs py d +:+ "}"
  end.

(** [str(v)], the call. The strings of an event are unicode, and [str]
    encodes them with the [ascii] codec: a character above 127 raises
    [UnicodeEncodeError], which is built from five arguments and so has an
    empty [message]. *)
Definition str_of (v : pyval) : res string :=
  match v with
  | PStr s => if ascii_only s then ret s else raise UnicodeEncodeError ""
  | _ => ret (py_str v)
  end.

(** [type(v).__name__]. *)
Definition type_name (v : pyval) : string :=
  match v with
  | PNone => "NoneType"
  | PBool _ => "bool"
  | PInt _ => "int"
  | PStr _ => "unicode"
  | PList _ => "list"
  | PDict _ => "dict"
  end.

(** [type(v) == int]: a bool is not an int here. *)
Definition is_int (v : pyval) : bool :=
  match v with PInt _ => true | _ => false end.

(** [v == s] for a string literal [s]. *)
Definition eq_str (v : pyval) (s : string) : bool :=
  match v with PStr t => bool_decide (t = s) | _ => false end.

(** [d[k]] on a dictionary. *)
Definition getitem (d : dict) (k : string) : res pyval :=
  match d !! k with
  | Some v => ret v
  | None => raise KeyError k
  end.

(** [v[k]] with a string key, on any value. *)
Definition subscript (v : pyval) (k : string) : res pyval :=
  match v with
  | PDict d => getitem d k
  | PStr _ => raise TypeError "string indices must be integers"
  | PList _ => raise TypeError "list indices must be integers, not str"
  | _ => raise TypeError ("'" +:+ type_name v +:+ "' object has no attribute '__getitem__'")
  end.

(** [k in v] with a string key, on any value. *)
Definition contains (k : string) (v : pyval) : res bool :=
  match v with
  | PDict d => ret (bool_decide (is_Some (d !! k)))
  | PStr s => ret (str_contains k s)
  | PList l => ret (existsb (fun x => eq_str x k) l)
  | _ => raise TypeError ("argument of type '" +:+ type_name v +:+ "' is not iterable")
  end.

(** [v[k] = x] with a string key, on any value. *)
Definition setitem (v : pyval) (k : string) (x : pyval) : res pyval :=
  match v with
  | PDict d => ret (PDict (<[k := x]> d))
  | PList _ => raise TypeError "list indices must be integers, not str"
  | _ => raise TypeError ("'" +:+ type_name v +:+ "' object does not support item assignment")
  end.

(** One element of the sequence given to [dict.update], read as a key and a
    value: it must itself be a sequence of length two. *)
Definition as_pair (i : nat) (x : pyval) : res (pyval * pyval) :=
  let wrong_length (n : nat) :=
    raise ValueError ("dictionary update sequence element #" +:+ pretty i
                      +:+ " has length " +:+ pretty n +:+ "; 2 is required") in
  match x with
  | PStr (String a (String b EmptyString)) =>
      ret (PStr (String a EmptyString), PStr (String b EmptyString))
  | PStr s => wrong_length (String.length s)
  | PList [k; v] => ret (k, v)
  | PList l => wrong_length (List.length l)
  | PDict d =>
      match key_order py d with
      | [k; v] => ret (PStr k, PStr v)
      | l => wrong_length (List.length l)
      end
  | _ => raise TypeError ("cannot convert dictionary update sequence element #"
                          +:+ pretty i +:+ " to a sequence")
  end.

(** [d[k] = v] for a key of any type: a key that is not a string leaves the
    string-keyed entries as they are, a list or a dictionary cannot be a key. *)
Definition set_any_key (d : dict) (k v : pyval) : res dict :=
  match k with
  | PStr s => ret (<[s := v]> d)
  | PList _ | PDict _ => raise TypeError ("unhashable type: '" +:+ type_name k +:+ "'")
  | _ => ret d
  end.

(** [dict.update] from a sequence of pairs, element [i] first. *)
Fixpoint update_from_pairs (i : nat) (d : dict) (l : list pyval) : res dict :=
  match l with
  | [] => ret d
  | x :: r =>
      let! kv := as_pair i x in
      let! d' := set_any_key d (fst kv) (snd kv) in
      update_from_pairs (S i) d' r
  end.

(** The characters of a string, as the strings its iteration yields. *)
Fixpoint chars (s : string) : list pyval :=
  match s with
  | EmptyString => []
  | String c r => PStr (String c EmptyString) :: chars r
  end.

(** [d.update(v)]: a mapping is merged, its entries winning over those of
    [d]; anything else is iterated as a sequence of pairs. *)
Definition dict_update (d : dict) (v : pyval) : res dict :=
  match v with
  | PDict d' => ret (d' ∪ d)
  | PStr s => update_from_pairs 0 d (chars s)
  | PList l => update_from_pairs 0 d l
  | _ => raise TypeError ("'" +:+ type_name v +:+ "' object is not iterable")
  end.

(** ** PostgresDBUser *)

(** [add_defaults]. *)
Definition add_defaults (self : dict) : res dict :=
  let! self1 :=
    match self !! "Database" with
    | Some db =>
        let! has := contains "Port" db in
        if negb has then
          let! db' := setitem db "Port" (PInt 5432) in
          ret (<["Database" := db']> self)
        else ret self
    | None => ret self
    end in
  match self1 !! "WithDatabase" with
  | None => ret (<["WithDatabase" := PStr "true"]> self1)
  | Some _ => ret self1
  end.

(** [str.isdigit()] called on the type, with no instance. *)
Definition str_isdigit_unbound : res bool :=
  raise TypeError "descriptor 'isdigit' of 'str' object needs an argument".

(** [type(port) == int or str.isdigit()]. *)
Definition port_is_integer (port : pyval) : res bool :=
  if is_int port then ret true else str_isdigit_unbound.

Definition require (k : string) (d : dict) (msg : string) : res unit :=
  match d !! k with
  | Some _ => ret tt
  | None => raise ValueError msg
  end.

(** Lines 55-58 of [check_valid]: the boolean shape of [WithDatabase]. *)
Definition check_with_database (self : dict) : res unit :=
  match self !! "WithDatabase" with
  | Some w =>
      let! text := str_of w in
      let v := lower text in
      if negb (bool_decide (v = "true") || bool_decide (v = "false")) then
        raise ValueError
          ("WithDatabase property " +:+ dquote +:+ v +:+ dquote +:+ " is not a boolean")
      else ret tt
  | None => ret tt
  end.

(** Lines 67-70 of [check_valid]: the port. *)
Definition check_port (db : dict) : res unit :=
  require "Port" db "Port is required in Database" ;;!
  let! port := getitem db "Port" in
  let! ok := port_is_integer port in
  if negb ok then raise ValueError "Port is required to be an integer in Database"
  else ret tt.

(** Lines 63-77 of [check_valid]: the fields of [db]. *)
Definition check_database (db : dict) : res unit :=
  require "Host" db "Host is required in Database" ;;!
  check_port db ;;!
  require "User" db "User is required in Database" ;;!
  require "Password" db "Password is required in Database" ;;!
  require "DBName" db "DBName is required in Database".

(** [check_valid]. *)
Definition check_valid (self : dict) : res unit :=
  require "User" self "User property is required" ;;!
  require "Password" self "Password property is required" ;;!
  check_with_database self ;;!
  match self !! "Database" with
  | Some (PDict db) => check_database db
  | _ => raise ValueError "Database property is required and must be an object"
  end.

(** [__init__], up to the descriptor's dictionary. *)
Definition PostgresDBUser_init (event : dict) : res dict :=
  let self := event in
  let! props := getitem event "ResourceProperties" in
  let! self := dict_update self props in
  let self := delete "ResourceProperties" self in
  let! self := add_defaults self in
  check_valid self ;;!
  ret self.

(** The properties. *)
Definition user (self : dict) : res pyval := getitem self "User".
Definition password (self : dict) : res pyval := getitem self "Password".
Definition database (self : dict) (k : string) : res pyval :=
  let! db := getitem self "Database" in subscript db k.
Definition host (self : dict) : res pyval := database self "Host".
Definition port (self : dict) : res pyval := database self "Port".
Definition dbname (self : dict) : res pyval := database self "DBName".

Definition with_database (self : dict) : res bool :=
  let! w := getitem self "WithDatabase" in ret (eq_str w "true").

Definition physical_resource_id (self : dict) : pyval :=
  match self !! "PhysicalResourceId" with
  | Some v => v
  | None => PStr ""
  end.

Definition logical_resource_id (self : dict) : pyval :=
  match self !! "LogicalResourceId" with
  | Some v => v
  | None => PStr ""
  end.

(** ['postgresql:%s:%s:%s?user=%s'] and ['postgresql://%s:%s?user=%s']. *)
Definition url_format (wd : bool) (h p u : pyval) : string :=
  if wd then
    "postgresql:" +:+ py_str h +:+ ":" +:+ py_str p +:+ ":" +:+ py_str u
      +:+ "?user=" +:+ py_str u
  else
    "postgresql://" +:+ py_str h +:+ ":" +:+ py_str p +:+ "?user=" +:+ py_str u.

(** [url]. *)
Definition url (self : dict) : res string :=
  let! wd := with_database self in
  let! h := host self in
  let! p := port self in
  let! u := user self in
  ret (url_format wd h p u).

(** [allow_overwrite]: [and] evaluates the comparison only when the key is
    there. *)
Definition allow_overwrite (self : dict) : res bool :=
  if bool_decide (is_Some (self !! "PhysicalResourceId")) then
    let! id := url self in
    ret (eq_str (physical_resource_id self) id)
  else ret false.

End Descriptor.

(** ** The driver *)

(** A parameter of [cursor.execute]: adapted as a literal, or spliced as it
    is when wrapped in [AsIs]. *)
Inductive param : Type :=
  | Lit (v : pyval)
  | AsIs (v : pyval).

(** One call of [cursor.execute]. *)
Record stmt : Type := Stmt { sql : string; params : list param }.

(** The keyword arguments of [psycopg2.connect]. *)
Record connect_info : Type := ConnectInfo {
  ci_host : pyval; ci_port : pyval; ci_dbname : pyval;
  ci_user : pyval; ci_password : pyval
}.

(** psycopg2 over a world [W], with connections [C] and cursors [K]; each
    operation returns or raises and leaves a new world. *)
Record driver (W C K : Type) : Type := Driver {
  pg_connect : connect_info -> W -> res C * W;
  pg_cursor : C -> W -> res K * W;
  pg_execute : K -> stmt -> W -> res unit * W;
  pg_fetchall : K -> W -> res (list (list pyval)) * W;
  pg_cursor_exit : K -> W -> res unit * W;
  pg_close : C -> W -> res unit * W
}.
Arguments pg_connect {W C K}.
Arguments pg_cursor {W C K}.
Arguments pg_execute {W C K}.
Arguments pg_fetchall {W C K}.
Arguments pg_cursor_exit {W C K}.
Arguments pg_close {W C K}.

(** The response dictionary. *)
Record Response : Type := mkResponse {
  Status : string;
  Reason : pyval;
  PhysicalResourceId : pyval;
  Data : dict
}.

(** [Response(status, reason, resource_id)], with the default [data={}]. *)
Definition Response_init (status : string) (reason resource_id : pyval) : Response :=
  mkResponse status reason resource_id ∅.

(** Names bound in the module namespace when a handler runs; no builtin is
    called [reason] either. *)
Definition module_names : list string :=
  ["boto3"; "hashlib"; "logging"; "time"; "string"; "psycopg2"; "choice";
   "ClientError"; "AsIs"; "cfn_resource"; "log"; "ssm"; "sts"; "region";
   "account_id"; "handler"; "Response"; "PostgresDBUser"; "create"; "update";
   "delete"].

Definition select_sql : string := "SELECT FROM pg_catalog.pg_user WHERE usename = %s".
Definition drop_sql : string := "DROP ROLE %s".
Definition create_sql : string := "CREATE ROLE %s LOGIN ENCRYPTED PASSWORD %s".

Section Handlers.

Variable py : interp.
Variables W C K : Type.
Variable pg : driver W C K.

(** The state a handler runs in: the world, and the statements passed to
    [cursor.execute] so far, oldest first. *)
Record st : Type := St { world : W; issued : list stmt }.

Definition M (A : Type) : Type := st -> res A * st.

Definition mret {A} (a : A) : M A := fun s => (inr a, s).
Definition mraise {A} (c : exn_class) (msg : string) : M A :=
  fun s => (inl (Exn c msg), s).
Definition mbind {A B} (m : M A) (k : A -> M B) : M B :=
  fun s => match m s with
           | (inl e, s') => (inl e, s')
           | (inr a, s') => k a s'
           end.
Definition lift {A} (r : res A) : M A := fun s => (r, s).

(** An operation of the driver, run on the world. *)
Definition call {A} (op : W -> res A * W) : M A :=
  fun s => let (r, w) := op (world s) in (r, St w (issued s)).

Notation "'do!' x ':=' m 'in' k" := (mbind m (fun x => k))
  (at level 10, x name, m at level 100, k at level 200).
Notation "m ';;' k" := (mbind m (fun _ => k))
  (at level 100, k at level 200, right associativity).

(** [try: m except Exception as e: h e]. *)
Definition catch {A} (m : M A) (h : exn -> M A) : M A :=
  fun s => match m s with
           | (inl e, s') => h e s'
           | (inr a, s') => (inr a, s')
           end.

(** The body of a [with] block whose [__exit__] returns a false value:
    [exit] runs on every way out, an exception of the body is raised again
    after it, and an exception of [exit] itself takes over. *)
Definition with_exit {A} (exit : M unit) (body : M A) : M A :=
  fun s => let (r, s1) := body s in
           match exit s1 with
           | (inl e, s2) => (inl e, s2)
           | (inr _, s2) => (r, s2)
           end.

(** [cursor.execute(sql, params)]. *)
Definition execute (k : K) (q : stmt) : M unit :=
  fun s => let (r, w) := pg_execute pg k q (world s) in
           (r, St w (issued s ++ [q])).

(** The descriptor object: its dictionary and its [connection] attribute. *)
Record PostgresDBUser : Type := Obj { items : dict; connection : option C }.

(** [self.connection]. *)
Definition get_connection (self : PostgresDBUser) : M C :=
  match connection self with
  | Some c => mret c
  | None => mraise AttributeError "'PostgresDBUser' object has no attribute 'connection'"
  end.

(** [connect_info]. *)
Definition get_connect_info (self : dict) : res connect_info :=
  let! h := database self "Host" in
  let! p := database self "Port" in
  let! n := database self "DBName" in
  let! u := database self "User" in
  let! w := database self "Password" in
  ret (ConnectInfo h p n u w).

(** [connect]. *)
Definition connect (self : PostgresDBUser) : M PostgresDBUser :=
  catch
    (do! ci := lift (get_connect_info (items self)) in
     do! c := call (pg_connect pg ci) in
     mret (Obj (items self) (Some c)))
    (fun e => mraise ValueError ("Failed to connect, " +:+ message e)).

(** [close]: a connection object is a true value. *)
Definition close (self : PostgresDBUser) : M unit :=
  do! c := get_connection self in call (pg_close pg c).

(** [with self.connection.cursor() as cursor: body]. *)
Definition with_cursor {A} (self : PostgresDBUser) (body : K -> M A) : M A :=
  do! c := get_connection self in
  do! k := call (pg_cursor pg c) in
  with_exit (call (pg_cursor_exit pg k)) (body k).

(** [exists]. *)
Definition exists_ (self : PostgresDBUser) : M bool :=
  with_cursor self (fun k =>
    do! u := lift (user (items self)) in
    execute k (Stmt select_sql [Lit u]) ;;
    do! rows := call (pg_fetchall pg k) in
    mret (0 <? List.length rows)%nat).

(** [drop]. *)
Definition drop (self : PostgresDBUser) : M unit :=
  with_cursor self (fun k =>
    do! u := lift (user (items self)) in
    execute k (Stmt drop_sql [AsIs u])).

(** [create], the method. *)
Definition create_role (self : PostgresDBUser) : M unit :=
  with_cursor self (fun k =>
    do! u := lift (user (items self)) in
    do! p := lift (password (items self)) in
    execute k (Stmt create_sql [AsIs u; Lit p])).

(** [with PostgresDBUser(event) as user: body]: [__init__], [__enter__]
    (which connects), the body, and [__exit__] (which closes). The result
    carries [user], still bound after the block. *)
Definition with_user {A} (event : dict) (body : PostgresDBUser -> M A)
  : M (A * PostgresDBUser) :=
  do! d := lift (PostgresDBUser_init py event) in
  do! u := connect (Obj d None) in
  do! a := with_exit (close u) (body u) in
  mret (a, u).

Definition sentinel : pyval := PStr "could-not-create".

(** The [with] block of the [create] handler: [Some r] is a [return r]
    executed inside it, [None] falls through to the last line. *)
Definition create_block (event : dict) : M (option Response * PostgresDBUser) :=
  with_user event (fun u =>
    do! ex := exists_ u in
    if negb ex then create_role u ;; mret None
    else
      do! name := lift (user (items u)) in
      mret (Some (Response_init "FAILED"
                    (PStr ("User " +:+ py_str py name +:+ " already exists"))
                    sentinel))).

(** The [create] handler. *)
Definition create (event : dict) : M Response :=
  do! out :=
    catch
      (do! ru := create_block event in
       mret (match fst ru with Some r => inl r | None => inr (snd ru) end))
      (fun e => mret (inl (Response_init "FAILED"
                             (PStr ("Failed to create user, " +:+ message e))
                             sentinel))) in
  match out with
  | inl r => mret r
  | inr u =>
      do! id := lift (url py (items u)) in
      mret (Response_init "SUCCESS" (PStr "") (PStr id))
  end.

(** Reading a global name. *)
Definition load_global (name : string) : res pyval :=
  if bool_decide (name ∈ module_names) then ret (global_value py name)
  else raise NameError ("global name '" +:+ name +:+ "' is not defined").

(** The [update] handler: it reads no state and calls no driver. *)
Definition update (event : dict) : res Response :=
  let! reason := load_global "reason" in
  let! id := getitem event "PhysicalResourceId" in
  ret (Response_init "SUCCESS" reason id).

(** The [with] block of the [delete] handler. *)
Definition delete_block (event : dict) : M (unit * PostgresDBUser) :=
  with_user event (fun u =>
    do! ex := exists_ u in
    if ex then drop u else mret tt).

(** The [delete] handler. *)
Definition delete (event : dict) : M Response :=
  do! out :=
    catch
      (delete_block event ;; mret None)
      (fun e =>
         do! id := lift (getitem event "PhysicalResourceId") in
         mret (Some (Response_init "FAILED" (PStr (message e)) id))) in
  match out with
  | Some r => mret r
  | None =>
      do! id := lift (getitem event "PhysicalResourceId") in
      mret (Response_init "SUCCESS" (PStr "") id)
  end.

End Handlers.

Arguments St {W}.
Arguments world {W}.
Arguments issued {W}.
Arguments Obj {C}.
Arguments items {C}.
Arguments connection {C}.
Arguments mret {W A}.
Arguments mraise {W A}.
Arguments mbind {W A B}.
Arguments lift {W A}.
Arguments call {W A}.
Arguments catch {W A}.
Arguments with_exit {W A}.
Arguments execute {W C K}.
Arguments get_connection {W C}.
Arguments connect {W C K}.
Arguments close {W C K}.
Arguments with_cursor {W C K} pg {A}.
Arguments exists_ {W C K}.
Arguments drop {W C K}.
Arguments create_role {W C K}.
Arguments with_user py {W C K} pg {A}.
Arguments create_block py {W C K}.
Arguments create py {W C K}.
Arguments delete_block py {W C K}.
Arguments delete py {W C K}.

(** ** A small server to run the handlers against

    A reference interpreter and a reference driver: the server is up or
    down and holds a list of role names; a cursor keeps the rows of its last
    query in the world. *)
Module Sample.

Definition py : interp :=
  Interp (fun _ => "...") (fun _ => "...")
         (fun d => (map fst (map_to_list d))) (fun _ => PNone).

Record pgworld : Type := PgWorld {
  up : bool;
  roles : list string;
  fetched : list (list pyval)
}.

Definition param_text (p : param) : string :=
  match p with Lit v | AsIs v => py_str py v end.

Definition has_role (n : string) (w : pgworld) : bool :=
  bool_decide (n ∈ roles w).

Definition sample_connect (_ : connect_info) (w : pgworld) : res unit * pgworld :=
  if up w then (ret tt, w)
  else (raise DriverError "could not connect to server", w).

Definition sample_execute (_ : unit) (q : stmt) (w : pgworld) : res unit * pgworld :=
  match params q with
  | p :: _ =>
      let n := param_text p in
      if bool_decide (sql q = select_sql) then
        (ret tt, PgWorld (up w) (roles w) (if has_role n w then [[]] else []))
      else if bool_decide (sql q = drop_sql) then
        if has_role n w then
          (ret tt, PgWorld (up w) (filter (fun r => r ≠ n) (roles w)) [])
        else (raise DriverError ("role " +:+ n +:+ " does not exist"), w)
      else if bool_decide (sql q = create_sql) then
        if has_role n w then
          (raise DriverError ("role " +:+ n +:+ " already exists"), w)
        else (ret tt, PgWorld (up w) (n :: roles w) [])
      else (raise DriverError "syntax error", w)
  | [] => (raise DriverError "syntax error", w)
  end.

Definition pg : driver pgworld unit unit :=
  Driver pgworld unit unit
    sample_connect
    (fun _ w => (ret tt, w))
    sample_execute
    (fun _ w => (ret (fetched w), w))
    (fun _ w => (ret tt, w))
    (fun _ w => (ret tt, w)).

(** The same server behind a connection whose [close] fails. *)
Definition pg_close_fails : driver pgworld unit unit :=
  Driver pgworld unit unit
    sample_connect
    (fun _ w => (ret tt, w))
    sample_execute
    (fun _ w => (ret (fetched w), w))
    (fun _ w => (ret tt, w))
    (fun _ w => (raise DriverError "connection already closed", w)).

(** The same server when every statement fails with an error that carries
    no message. *)
Definition pg_silent : driver pgworld unit unit :=
  Driver pgworld unit unit
    sample_connect
    (fun _ w => (ret tt, w))
    (fun _ _ w => (raise DriverError "", w))
    (fun _ w => (ret (fetched w), w))
    (fun _ w => (ret tt, w))
    (fun _ w => (ret tt, w)).

(** A server whose catalog lookup answers [present] whatever its roles are,
    as when another session creates or drops the role between the lookup
    and the statement that follows. *)
Definition racing_execute (present : bool) (k : unit) (q : stmt) (w : pgworld)
  : res unit * pgworld :=
  if bool_decide (sql q = select_sql) then
    (ret tt, PgWorld (up w) (roles w) (if present then [[]] else []))
  else sample_execute k q w.

Definition pg_racing (present : bool) : driver pgworld unit unit :=
  Driver pgworld unit unit
    sample_connect
    (fun _ w => (ret tt, w))
    (racing_execute present)
    (fun _ w => (ret (fetched w), w))
    (fun _ w => (ret tt, w))
    (fun _ w => (ret tt, w)).

(** The value a computation returned, or [default] when it raised. *)
Definition value {A} (default : A) (r : res A) : A :=
  match r with inr a => a | inl _ => default end.

(** The descriptor [__init__] builds from an event. *)
Definition built (ev : dict) : dict := value ∅ (PostgresDBUser_init py ev).

(** The stages of a handler's run on a server: the connected descriptor and
    the states after [connect], [exists], the mutating statement and
    [close]. *)
Definition connected (g : driver pgworld unit unit) (ev : dict) (s : st pgworld)
  : PostgresDBUser unit :=
  value (Obj ∅ None) (fst (connect g (Obj (built ev) None) s)).

Definition after_connect (g : driver pgworld unit unit) (ev : dict)
  (s : st pgworld) : st pgworld :=
  snd (connect g (Obj (built ev) None) s).

Definition after_exists (g : driver pgworld unit unit) (ev : dict)
  (s : st pgworld) : st pgworld :=
  snd (exists_ g (connected g ev s) (after_connect g ev s)).

Definition after_create_role (g : driver pgworld unit unit) (ev : dict)
  (s : st pgworld) : st pgworld :=
  snd (create_role g (connected g ev s) (after_exists g ev s)).

Definition after_drop (g : driver pgworld unit unit) (ev : dict)
  (s : st pgworld) : st pgworld :=
  snd (drop g (connected g ev s) (after_exists g ev s)).

(** A server that is up, with the given roles, and nothing issued yet. *)
Definition server (rs : list string) : st pgworld := St (PgWorld true rs []) [].

(** A server that refuses connections. *)
Definition down : st pgworld := St (PgWorld false [] []) [].

(** The target connection of the scenarios, with or without a port. *)
Definition db_plain : dict :=
  list_to_map [("Host", PStr "db1"); ("User", PStr "admin");
               ("Password", PStr "y"); ("DBName", PStr "appdb")].

Definition db_with_port (p : pyval) : dict := <["Port" := p]> db_plain.

Definition props (db : pyval) : dict :=
  list_to_map [("User", PStr "app"); ("Password", PStr "x"); ("Database", db)].

(** A Create event for role [app]. *)
Definition create_event : dict :=
  list_to_map [("RequestType", PStr "Create");
               ("LogicalResourceId", PStr "AppUser");
               ("ResourceProperties", PDict (props (PDict db_plain)))].

(** An Update or Delete event for role [app], carrying physical id [X]. *)
Definition event_with_id (kind : string) (db : pyval) : dict :=
  list_to_map [("RequestType", PStr kind);
               ("LogicalResourceId", PStr "AppUser");
               ("PhysicalResourceId", PStr "X");
               ("ResourceProperties", PDict (props db))].

Definition delete_event : dict := event_with_id "Delete" (PDict db_plain).

(** The Delete event of a rollback: the stack's Create was answered FAILED
    with the sentinel id because [WithDatabase] is not ASCII (here the one
    character of code 233), and the orchestrator now deletes that id with
    the same properties. *)
Definition rollback_event : dict :=
  list_to_map [("RequestType", PStr "Delete");
               ("LogicalResourceId", PStr "AppUser");
               ("PhysicalResourceId", PStr "could-not-create");
               ("ResourceProperties",
                PDict (<["WithDatabase" := PStr (String "233" EmptyString)]>
                         (props (PDict db_plain))))].
Definition update_event : dict := event_with_id "Update" (PDict db_plain).

(** The descriptor of [create_event] once merged and defaulted. *)
Definition descriptor (wd : pyval) (db : dict) : dict :=
  list_to_map [("User", PStr "app"); ("Password", PStr "x");
               ("WithDatabase", wd); ("Database", PDict db)].

(** A validated descriptor with the given flag, host, port and user. *)
Definition descriptor_of (wd : pyval) (h : string) (p : Z) (u : string) : dict :=
  list_to_map [("User", PStr u); ("Password", PStr "x"); ("WithDatabase", wd);
               ("Database", PDict (<["Host" := PStr h]> (db_with_port (PInt p))))].

End Sample.

(** ** Predicates and checks the statements are made of *)

(** What a descriptor that passed [check_valid] holds. *)
Inductive validated (py : interp) (d : dict) : Prop :=
  | Validated (db : dict) (u pw h : pyval) (z : Z) (au ap dn : pyval)
      (has_user : d !! "User" = Some u)
      (has_password : d !! "Password" = Some pw)
      (has_database : d !! "Database" = Some (PDict db))
      (has_host : db !! "Host" = Some h)
      (has_port : db !! "Port" = Some (PInt z))
      (has_admin : db !! "User" = Some au)
      (has_admin_password : db !! "Password" = Some ap)
      (has_dbname : db !! "DBName" = Some dn)
      (wd_shape : forall w, d !! "WithDatabase" = Some w ->
                  lower (py_str py w) = "true" \/ lower (py_str py w) = "false").

(** A check on the descriptor: [Some e] when it fails, raising [e]. *)
Definition field_check : Type := dict -> option exn.

(** The dictionary under [Database], empty when there is none. *)
Definition db_of (self : dict) : dict :=
  match self !! "Database" with
  | Some (PDict db) => db
  | _ => ∅
  end.

Definition missing (k msg : string) (d : dict) : option exn :=
  match d !! k with
  | Some _ => None
  | None => Some (Exn ValueError msg)
  end.

(** The nine checks, in the order user, password, withDatabase shape,
    targetConnection presence and type, host, port, adminUser,
    adminPassword, databaseName. [port_type_error] is what a port that is
    not an integer fails with. *)
Definition field_checks (py : interp) (port_type_error : exn) : list field_check :=
  [ missing "User" "User property is required";
    missing "Password" "Password property is required";
    (fun d => match d !! "WithDatabase" with
              | Some w =>
                  match str_of py w with
                  | inl e => Some e
                  | inr text =>
                      let v := lower text in
                      if bool_decide (v = "true") || bool_decide (v = "false")
                      then None
                      else Some (Exn ValueError
                                   ("WithDatabase property " +:+ dquote +:+ v
                                    +:+ dquote +:+ " is not a boolean"))
                  end
              | None => None
              end);
    (fun d => match d !! "Database" with
              | Some (PDict _) => None
              | _ => Some (Exn ValueError
                             "Database property is required and must be an object")
              end);
    (fun d => missing "Host" "Host is required in Database" (db_of d));
    (fun d => match db_of d !! "Port" with
              | None => Some (Exn ValueError "Port is required in Database")
              | Some p => if is_int p then None else Some port_type_error
              end);
    (fun d => missing "User" "User is required in Database" (db_of d));
    (fun d => missing "Password" "Password is required in Database" (db_of d));
    (fun d => missing "DBName" "DBName is required in Database" (db_of d)) ].

(** The error of the first check that fails, if any. *)
Fixpoint first_failure (cs : list field_check) (d : dict) : res unit :=
  match cs with
  | [] => ret tt
  | c :: r =>
      match c d with
      | Some e => inl e
      | None => first_failure r d
      end
  end.

(** What [str.isdigit()] raises. *)
Definition isdigit_error : exn :=
  Exn TypeError "descriptor 'isdigit' of 'str' object needs an argument".

(** What line 70 of [check_valid] means to raise. *)
Definition port_integer_error : exn :=
  Exn ValueError "Port is required to be an integer in Database".

(** An error of [dict.update]: a [TypeError], or a [ValueError] about the
    length of an element. *)
Definition update_error (e : exn) : Prop :=
  exn_cls e = TypeError \/
  exists rest, message e = "dictionary update sequence element #" +:+ rest.

(** Between [s] and [s'], only statements satisfying [P] were issued. *)
Definition issued_between {W} (P : stmt -> Prop) (s s' : st W) : Prop :=
  exists qs, issued s' = (issued s ++ qs)%list /\ Forall P qs.

(** Every run of [m] issues only statements satisfying [P]. *)
Definition issues_only {W A} (P : stmt -> Prop) (m : M W A) : Prop :=
  forall s r s', m s = (r, s') -> issued_between P s s'.


(** The characters that separate the parts of an identity. *)
Definition is_sep (c : ascii) : bool :=
  (c =? ":")%char || (c =? "/")%char || (c =? "?")%char.

(** The characters of a printed integer. *)
Definition is_num_char (c : ascii) : bool :=
  (c =? "-")%char ||
  ((48 <=? nat_of_ascii c)%nat && (nat_of_ascii c <=? 57)%nat).

Fixpoint all_chars (P : ascii -> bool) (s : string) : bool :=
  match s with
  | EmptyString => true
  | String c r => P c && all_chars P r
  end.

(** A string without separators. *)
Definition plain (s : string) : Prop :=
  all_chars (fun c => negb (is_sep c)) s = true.

(** ** Scenarios *)

Example scenario_create :
  create Sample.py Sample.pg Sample.create_event (Sample.server []) =
  (inr (Response_init "SUCCESS" (PStr "") (PStr "postgresql:db1:5432:app?user=app")),
   St (Sample.PgWorld true ["app"] [])
      [Stmt select_sql [Lit (PStr "app")];
       Stmt create_sql [AsIs (PStr "app"); Lit (PStr "x")]]).
Proof. vm_compute. reflexivity. Qed.

Example scenario_create_again :
  fst (create Sample.py Sample.pg Sample.create_event (Sample.server ["app"])) =
  inr (Response_init "FAILED" (PStr "User app already exists") sentinel).
Proof. vm_compute. reflexivity. Qed.

Example scenario_delete_absent :
  delete Sample.py Sample.pg Sample.delete_event (Sample.server []) =
  (inr (Response_init "SUCCESS" (PStr "") (PStr "X")),
   St (Sample.PgWorld true [] []) [Stmt select_sql [Lit (PStr "app")]]).
Proof. vm_compute. reflexivity. Qed.

(** ** Validation *)

(** [H : (m ;;! k) = inr _]: [m] returned, continue with [k]. *)
Ltac split_bind H :=
  match type of H with
  | rbind ?m _ = inr _ =>
      let E := fresh "E" in
      destruct m as [? | []] eqn:E; [discriminate | simpl in H]
  end.

Section Validation.

Variable py : interp.

Lemma require_inv k d msg r :
  require k d msg = inr r -> is_Some (d !! k).
Proof. unfold require. destruct (d !! k); [eauto | discriminate]. Qed.

Lemma require_some k d msg v :
  d !! k = Some v -> require k d msg = inr tt.
Proof. unfold require. intros ->. reflexivity. Qed.

Lemma port_is_integer_inv p b :
  port_is_integer p = inr b -> b = true /\ exists z, p = PInt z.
Proof.
  unfold port_is_integer. destruct p; simpl; try discriminate.
  intros [= <-]. eauto.
Qed.

Lemma lower_ascii_is_ascii c : is_ascii (lower_ascii c) = is_ascii c.
Proof. by destruct c as [[] [] [] [] [] [] [] []]. Qed.

Lemma ascii_only_lower s : ascii_only (lower s) = ascii_only s.
Proof.
  induction s as [|c s IH]; simpl; [done|]. by rewrite lower_ascii_is_ascii, IH.
Qed.

(** When [str] returns, it returns what [%s] prints. *)
Lemma str_of_inv w t : str_of py w = inr t -> t = py_str py w.
Proof.
  destruct w as [|b|z|t0|l|m]; simpl; try (by intros [= <-]).
  destruct (ascii_only t0); [by intros [= <-] | discriminate].
Qed.

(** [str] returns on a value whose lowercased text is ASCII. *)
Lemma str_of_lower w :
  ascii_only (lower (py_str py w)) = true -> str_of py w = inr (py_str py w).
Proof.
  rewrite ascii_only_lower. destruct w as [|b|z|t0|l|m]; simpl; try done.
  by intros ->.
Qed.

(** The only error of [str]. *)
Lemma str_of_error w e : str_of py w = inl e -> e = Exn UnicodeEncodeError "".
Proof.
  destruct w as [|b|z|t0|l|m]; simpl; try discriminate.
  destruct (ascii_only t0); [discriminate | by intros [= <-]].
Qed.

Lemma check_with_database_inv d :
  check_with_database py d = inr tt ->
  forall w, d !! "WithDatabase" = Some w ->
  lower (py_str py w) = "true" \/ lower (py_str py w) = "false".
Proof.
  unfold check_with_database. intros H w Hw. rewrite Hw in H.
  destruct (str_of py w) as [e|t] eqn:Hs; simpl in H; [discriminate|].
  apply str_of_inv in Hs as ->.
  destruct (bool_decide (lower (py_str py w) = "true")) eqn:E1.
  - left. by apply bool_decide_eq_true in E1.
  - destruct (bool_decide (lower (py_str py w) = "false")) eqn:E2.
    + right. by apply bool_decide_eq_true in E2.
    + discriminate.
Qed.

Lemma check_with_database_ok d :
  (forall w, d !! "WithDatabase" = Some w ->
     lower (py_str py w) = "true" \/ lower (py_str py w) = "false") ->
  check_with_database py d = inr tt.
Proof.
  unfold check_with_database. intros H.
  destruct (d !! "WithDatabase") as [w|]; [|reflexivity].
  destruct (H w eq_refl) as [E | E];
    rewrite str_of_lower by (by rewrite E); simpl; by rewrite E.
Qed.

Lemma check_port_inv db :
  check_port db = inr tt -> exists z, db !! "Port" = Some (PInt z).
Proof.
  unfold check_port, require, getitem.
  destruct (db !! "Port") as [p|]; [|discriminate]. simpl.
  destruct (port_is_integer p) as [|ok] eqn:Hok; [discriminate|].
  apply port_is_integer_inv in Hok as [-> [z ->]]. eauto.
Qed.

Lemma check_port_ok db z : db !! "Port" = Some (PInt z) -> check_port db = inr tt.
Proof. unfold check_port, require, getitem. intros ->. reflexivity. Qed.

Lemma check_valid_inv d : check_valid py d = inr tt -> validated py d.
Proof.
  unfold check_valid. intros H.
  split_bind H. apply require_inv in E as [u Hu].
  split_bind H. apply require_inv in E as [pw Hp].
  split_bind H. rename E into Hw.
  destruct (d !! "Database") as [[| | | | |db]|] eqn:Hd; try discriminate.
  unfold check_database in H.
  split_bind H. apply require_inv in E as [h Hh].
  split_bind H. apply check_port_inv in E as [z Hz].
  split_bind H. apply require_inv in E as [au Hau].
  split_bind H. apply require_inv in E as [ap Hap].
  apply require_inv in H as [dn Hdn].
  econstructor; eauto using check_with_database_inv.
Qed.

Lemma validated_check d : validated py d -> check_valid py d = inr tt.
Proof.
  intros [db u pw h z au ap dn Hu Hp Hd Hh Hpt Hau Hap Hdn Hw].
  unfold check_valid, check_database.
  rewrite (require_some _ _ _ _ Hu), (require_some _ _ _ _ Hp),
    (check_with_database_ok _ Hw), Hd, (require_some _ _ _ _ Hh),
    (check_port_ok _ _ Hpt), (require_some _ _ _ _ Hau),
    (require_some _ _ _ _ Hap), (require_some _ _ _ _ Hdn).
  reflexivity.
Qed.

(** [add_defaults] leaves a [WithDatabase] entry behind. *)
Lemma add_defaults_with_database self self' :
  add_defaults self = inr self' -> is_Some (self' !! "WithDatabase").
Proof.
  unfold add_defaults. intros H.
  destruct (match self !! "Database" with Some _ => _ | None => _ end)
    as [|self1]; [discriminate|]. simpl in H.
  destruct (self1 !! "WithDatabase") eqn:Hw; injection H as <-.
  - rewrite Hw. eauto.
  - rewrite lookup_insert_eq. eauto.
Qed.

(** [add_defaults] leaves a [Port] entry in a [Database] that is a dictionary. *)
Lemma add_defaults_port self self' db :
  add_defaults self = inr self' ->
  self' !! "Database" = Some (PDict db) -> is_Some (db !! "Port").
Proof.
  unfold add_defaults. intros H Hdb.
  assert (Hstep : forall self1,
            match self !! "Database" with
            | Some db0 =>
                let! has := contains "Port" db0 in
                if negb has then
                  let! db' := setitem db0 "Port" (PInt 5432) in
                  ret (<["Database" := db']> self)
                else ret self
            | None => ret self
            end = inr self1 ->
            forall d, self1 !! "Database" = Some (PDict d) -> is_Some (d !! "Port")).
  { intros self1 H1 d Hd.
    destruct (self !! "Database") as [db0|] eqn:H0.
    - destruct db0 as [| | | s | l | d0]; simpl in H1; try discriminate.
      + destruct (negb _); simpl in H1; [discriminate|].
        injection H1 as <-. congruence.
      + destruct (negb _); simpl in H1; [discriminate|].
        injection H1 as <-. congruence.
      + destruct (bool_decide (is_Some (d0 !! "Port"))) eqn:Hp; simpl in H1;
          injection H1 as <-.
        * apply bool_decide_eq_true in Hp. congruence.
        * rewrite lookup_insert_eq in Hd. injection Hd as <-.
          rewrite lookup_insert_eq. eauto.
    - injection H1 as <-. congruence. }
  destruct (match self !! "Database" with Some _ => _ | None => _ end)
    as [|self1] eqn:H1; [discriminate|]. simpl in H.
  destruct (self1 !! "WithDatabase") eqn:Hw; injection H as <-.
  - eauto.
  - rewrite lookup_insert_ne in Hdb by discriminate. eauto.
Qed.

(** A descriptor that [__init__] built is validated and has its
    [WithDatabase] entry. *)
Lemma init_inv ev d :
  PostgresDBUser_init py ev = inr d ->
  validated py d /\ is_Some (d !! "WithDatabase").
Proof.
  unfold PostgresDBUser_init. intros H.
  destruct (getitem ev _) as [|props]; [discriminate|]. simpl in H.
  destruct (dict_update py ev props) as [|self]; [discriminate|]. simpl in H.
  destruct (add_defaults _) as [|self'] eqn:Hd; [discriminate|]. simpl in H.
  destruct (check_valid py self') as [|[]] eqn:Hv; [discriminate|].
  injection H as <-. split.
  - by apply check_valid_inv.
  - by apply add_defaults_with_database in Hd.
Qed.

(** The identity of a validated descriptor: the format applied to the flag,
    the host, the port and the user. *)
Lemma url_validated d w :
  validated py d -> d !! "WithDatabase" = Some w ->
  exists h z u,
    host d = inr h /\ port d = inr (PInt z) /\ user d = inr u /\
    url py d = inr (url_format py (eq_str w "true") h (PInt z) u).
Proof.
  intros [db u pw h z au ap dn Hu Hp Hd Hh Hpt Hau Hap Hdn _] Hw.
  exists h, z, u.
  unfold url, with_database, host, port, user, database, getitem.
  rewrite Hw, Hd, Hu. simpl. unfold getitem. rewrite Hh, Hpt. done.
Qed.

End Validation.

(** ** The order of the checks *)

Section Order.

Variable py : interp.

(** [check_valid] is the search for the first failing check, in that
    order; the port, when it is not an [int], fails with [isdigit_error]. *)
Lemma check_database_first_failure d db :
  d !! "Database" = Some (PDict db) ->
  check_database db = first_failure (skipn 4 (field_checks py isdigit_error)) d.
Proof.
  intros Hd. simpl. unfold db_of, missing. rewrite Hd.
  unfold check_database, check_port, require, getitem.
  destruct (db !! "Host"); [|reflexivity].
  destruct (db !! "Port") as [q|]; [|reflexivity]. simpl.
  destruct q; try reflexivity. simpl.
  destruct (db !! "User"); [|reflexivity].
  destruct (db !! "Password"); [|reflexivity].
  destruct (db !! "DBName"); reflexivity.
Qed.

Lemma check_valid_first_failure d :
  check_valid py d = first_failure (field_checks py isdigit_error) d.
Proof.
  unfold check_valid.
  change (field_checks py isdigit_error)
    with (firstn 4 (field_checks py isdigit_error)
          ++ skipn 4 (field_checks py isdigit_error))%list.
  cbn [firstn field_checks app first_failure].
  unfold require, missing at 1 2, check_with_database.
  destruct (d !! "User"); [|reflexivity].
  destruct (d !! "Password"); [|reflexivity]. simpl rbind.
  assert (Hdb :
    match d !! "Database" with
    | Some (PDict db) => check_database db
    | _ => raise ValueError "Database property is required and must be an object"
    end =
    match match d !! "Database" with
          | Some (PDict _) => None
          | _ => Some (Exn ValueError
                         "Database property is required and must be an object")
          end with
    | Some e => inl e
    | None => first_failure (skipn 4 (field_checks py isdigit_error)) d
    end).
  { destruct (d !! "Database") as [[| | | | |db]|] eqn:Hd; try reflexivity.
    by apply check_database_first_failure. }
  destruct (d !! "WithDatabase") as [w|]; [|exact Hdb].
  destruct (str_of py w) as [e|text]; [reflexivity|]. simpl rbind. cbv zeta.
  destruct (bool_decide _ || bool_decide _); [exact Hdb | reflexivity].
Qed.

End Order.

(** ** Which errors construction can raise *)

Section Errors.

Variable py : interp.

Lemma as_pair_error i x e : as_pair py i x = inl e -> update_error e.
Proof.
  unfold as_pair, raise, ret.
  destruct x as [| | |s|l|d]; try (intros [= <-]; left; reflexivity).
  - destruct s as [|a [|b [|c s]]]; intros [= <-]; right; eexists; reflexivity.
  - destruct l as [|k [|v [|y l]]]; intros [= <-]; right; eexists; reflexivity.
  - destruct (key_order py d) as [|k [|v [|y l]]]; intros [= <-]; right;
      eexists; reflexivity.
Qed.

Lemma set_any_key_error d k v e : set_any_key d k v = inl e -> update_error e.
Proof. destruct k; simpl; intros [= <-]; left; reflexivity. Qed.

Lemma update_from_pairs_error l : forall i d e,
  update_from_pairs py i d l = inl e -> update_error e.
Proof.
  induction l as [|x l IH]; intros i d e; simpl; [discriminate|].
  destruct (as_pair py i x) as [e1|kv] eqn:Hp; simpl.
  { intros [= <-]. eauto using as_pair_error. }
  destruct (set_any_key d kv.1 kv.2) as [e2|d'] eqn:Hs; simpl.
  { intros [= <-]. eauto using set_any_key_error. }
  apply IH.
Qed.

Lemma dict_update_error d v e : dict_update py d v = inl e -> update_error e.
Proof.
  destruct v; simpl; try (intros [= <-]; left; reflexivity);
    try discriminate; apply update_from_pairs_error.
Qed.

Lemma add_defaults_error self e : add_defaults self = inl e -> exn_cls e = TypeError.
Proof.
  unfold add_defaults.
  destruct (match self !! "Database" with Some _ => _ | None => _ end)
    as [e1|self1] eqn:H1; simpl.
  - intros [= <-].
    destruct (self !! "Database") as [db|]; [|discriminate].
    destruct db; simpl in H1; try (injection H1 as <-; reflexivity);
      destruct (negb _); simpl in H1; try discriminate;
      injection H1 as <-; reflexivity.
  - destruct (self1 !! "WithDatabase"); discriminate.
Qed.

(** Where an error of [__init__] comes from: the missing
    [ResourceProperties], the merge, [add_defaults], or [check_valid] on a
    descriptor whose [Database], when a dictionary, has its [Port]. *)
Lemma init_error ev e :
  PostgresDBUser_init py ev = inl e ->
  e = Exn KeyError "ResourceProperties" \/ update_error e \/
  exists d, check_valid py d = inl e /\
            forall db, d !! "Database" = Some (PDict db) -> is_Some (db !! "Port").
Proof.
  unfold PostgresDBUser_init, getitem. intros H.
  destruct (ev !! "ResourceProperties") as [props|]; simpl in H;
    [|injection H as <-; by left].
  destruct (dict_update py ev props) as [e1|self] eqn:Hu; simpl in H.
  { injection H as <-. right; left. eauto using dict_update_error. }
  destruct (add_defaults _) as [e2|self'] eqn:Hd; simpl in H.
  { injection H as <-. right; left. left. eauto using add_defaults_error. }
  destruct (check_valid py self') as [e3|[]] eqn:Hv; simpl in H; [|discriminate].
  injection H as <-. right; right. exists self'. split; [done|].
  eauto using add_defaults_port.
Qed.

Lemma update_error_not_value e msg :
  update_error e -> exn_cls e = ValueError ->
  String.prefix "dictionary" msg = false -> message e <> msg.
Proof.
  intros [Hc | [rest Hm]] Hv Hp; [congruence|].
  rewrite Hm. intros <-. simpl in Hp. discriminate.
Qed.

(** Only a [Database] dictionary without a [Port] makes [check_valid] raise
    the error of line 68. *)
Lemma check_valid_port_required d :
  check_valid py d = raise ValueError "Port is required in Database" ->
  exists db, d !! "Database" = Some (PDict db) /\ db !! "Port" = None.
Proof.
  rewrite check_valid_first_failure.
  unfold field_checks, first_failure, missing, db_of, raise, isdigit_error.
  destruct (d !! "User"); [|discriminate].
  destruct (d !! "Password"); [|discriminate].
  intros H.
  assert (Hd : match d !! "Database" with
               | Some (PDict db) => db !! "Port" = None
               | _ => False
               end).
  { destruct (d !! "WithDatabase") as [w|].
    - destruct (str_of py w) as [e|text] eqn:Hs;
        [apply str_of_error in Hs as ->; discriminate|].
      cbv zeta in H.
      destruct (bool_decide _ || bool_decide _); [|simpl in H; discriminate].
      destruct (d !! "Database") as [[| | | | |db]|]; try discriminate.
      destruct (db !! "Host"); [|discriminate].
      destruct (db !! "Port") as [q|]; [|reflexivity].
      destruct (is_int q); [|discriminate].
      destruct (db !! "User"); [|discriminate].
      destruct (db !! "Password"); [|discriminate].
      destruct (db !! "DBName"); discriminate.
    - destruct (d !! "Database") as [[| | | | |db]|]; try discriminate.
      destruct (db !! "Host"); [|discriminate].
      destruct (db !! "Port") as [q|]; [|reflexivity].
      destruct (is_int q); [|discriminate].
      destruct (db !! "User"); [|discriminate].
      destruct (db !! "Password"); [|discriminate].
      destruct (db !! "DBName"); discriminate. }
  destruct (d !! "Database") as [[| | | | |db]|]; try contradiction. eauto.
Qed.

(** [check_valid] never raises the error of line 70. *)
Lemma check_valid_not_integer_error d :
  check_valid py d <> inl port_integer_error.
Proof.
  rewrite check_valid_first_failure.
  unfold field_checks, first_failure, missing, db_of, isdigit_error,
    port_integer_error.
  destruct (d !! "User"); [|discriminate].
  destruct (d !! "Password"); [|discriminate].
  assert (Hd : match d !! "Database" with
               | Some (PDict db) =>
                   match match db !! "Host" with
                         | Some _ => None
                         | None => Some (Exn ValueError "Host is required in Database")
                         end with
                   | Some e => inl e
                   | None =>
                       first_failure (skipn 5 (field_checks py isdigit_error)) d
                   end
               | _ => inl (Exn ValueError
                             "Database property is required and must be an object")
               end <> inl port_integer_error).
  { destruct (d !! "Database") as [[| | | | |db]|] eqn:Hdb; try discriminate.
    destruct (db !! "Host"); [|discriminate].
    simpl. unfold db_of, missing. rewrite Hdb.
    destruct (db !! "Port") as [q|]; [|discriminate].
    destruct (is_int q); [|discriminate].
    destruct (db !! "User"); [|discriminate].
    destruct (db !! "Password"); [|discriminate].
    destruct (db !! "DBName"); discriminate. }
  destruct (d !! "WithDatabase") as [w|].
  - destruct (str_of py w) as [e|text] eqn:Hs;
      [apply str_of_error in Hs as ->; discriminate|].
    cbv zeta.
    destruct (bool_decide _ || bool_decide _); [|simpl; discriminate].
    destruct (d !! "Database") as [[| | | | |db]|] eqn:Hdb; try discriminate.
    simpl in Hd. unfold db_of, missing in *. rewrite Hdb in *. exact Hd.
  - destruct (d !! "Database") as [[| | | | |db]|] eqn:Hdb; try discriminate.
    simpl in Hd. unfold db_of, missing in *. rewrite Hdb in *. exact Hd.
Qed.

End Errors.

(** ** Claims on validation *)

(** C10. [add_defaults] puts [Port = 5432] into a [Database] dictionary that
    has no [Port], before [check_valid] runs; so no event makes
    [PostgresDBUser.__init__] raise "Port is required in Database". *)
Theorem port_required_unreachable (py : interp) :
  (forall self db,
     self !! "Database" = Some (PDict db) -> db !! "Port" = None ->
     exists self',
       add_defaults self = inr self' /\
       self' !! "Database" = Some (PDict (<["Port" := PInt 5432]> db))) /\
  (forall ev,
     PostgresDBUser_init py ev <> raise ValueError "Port is required in Database").
Proof.
  split.
  - intros self db Hdb Hp. unfold add_defaults. rewrite Hdb. simpl.
    rewrite bool_decide_eq_false_2 by (rewrite Hp; by intros [? ?]). simpl.
    destruct (<["Database" := _]> self !! "WithDatabase") eqn:Hw;
      eexists; (split; [reflexivity|]).
    + by rewrite lookup_insert_eq.
    + rewrite lookup_insert_ne by discriminate. by rewrite lookup_insert_eq.
  - intros ev H. apply init_error in H as [H | [H | (d & Hv & Hport)]].
    + discriminate.
    + by eapply (update_error_not_value _ "Port is required in Database").
    + apply check_valid_port_required in Hv as (db & Hdb & Hnone).
      destruct (Hport db Hdb) as [q Hq]. congruence.
Qed.

Lemma port_required_unreachable_witness :
  (exists self',
     add_defaults (Sample.props (PDict Sample.db_plain)) = inr self' /\
     self' !! "Database" = Some (PDict (<["Port" := PInt 5432]> Sample.db_plain))) /\
  PostgresDBUser_init Sample.py Sample.create_event
    <> raise ValueError "Port is required in Database".
Proof.
  split.
  - apply (proj1 (port_required_unreachable Sample.py)
             (Sample.props (PDict Sample.db_plain)) Sample.db_plain);
      vm_compute; reflexivity.
  - apply (proj2 (port_required_unreachable Sample.py)).
Defined.

(** C8, amended. In [type(port) == int or str.isdigit()] the second branch
    is never true: where it is evaluated, on a port that is not an [int], it
    raises. A port passes the check exactly when it is an [int], and no
    descriptor and no event is rejected with "Port is required to be an
    integer in Database". *)
Theorem port_check_never_integer_error (py : interp) :
  (forall p, port_is_integer p = inr true <-> exists z, p = PInt z) /\
  (forall p, is_int p = false -> port_is_integer p = inl isdigit_error) /\
  (forall d, check_valid py d <> inl port_integer_error) /\
  (forall ev, PostgresDBUser_init py ev <> inl port_integer_error).
Proof.
  repeat split.
  - intros H. by apply port_is_integer_inv in H as [_ H].
  - intros [z ->]. reflexivity.
  - intros p Hp. unfold port_is_integer. by rewrite Hp.
  - apply check_valid_not_integer_error.
  - intros ev H. apply init_error in H as [H | [H | (d & Hv & _)]].
    + discriminate.
    + by eapply (update_error_not_value _
                   "Port is required to be an integer in Database").
    + by eapply check_valid_not_integer_error.
Qed.

(** C8 as stated fails: on the port ["5432"], a string, the second branch
    is not true and the port is not accepted; validation raises the
    [TypeError] of [str.isdigit()]. *)
Lemma string_port_not_accepted :
  port_is_integer (PStr "5432") <> inr true /\
  check_valid Sample.py
    (Sample.descriptor (PStr "true") (Sample.db_with_port (PStr "5432")))
  = inl isdigit_error /\
  PostgresDBUser_init Sample.py
    (Sample.event_with_id "Create" (PDict (Sample.db_with_port (PStr "5432"))))
  = inl isdigit_error.
Proof. split; [discriminate | split; vm_compute; reflexivity]. Qed.

(** C9. A [WithDatabase] value that lowercases to ["true"] without being the
    string ["true"] passes the boolean-shape check, and the descriptor is
    validated exactly as with ["true"]; yet [with_database] is false, and
    the identity of a validated descriptor has the ["postgresql://"] form. *)
Theorem with_database_compared_as_given (py : interp) (d : dict) (w : pyval) :
  d !! "WithDatabase" = Some w ->
  lower (py_str py w) = "true" ->
  w <> PStr "true" ->
  check_with_database py d = inr tt /\
  check_valid py d = check_valid py (<["WithDatabase" := PStr "true"]> d) /\
  with_database d = inr false /\
  (check_valid py d = inr tt ->
   exists h z u,
     host d = inr h /\ port d = inr (PInt z) /\ user d = inr u /\
     url py d = inr ("postgresql://" +:+ py_str py h +:+ ":" +:+ pretty z
                     +:+ "?user=" +:+ py_str py u)).
Proof.
  intros Hw Hlow Hne.
  assert (Hc : check_with_database py d = inr tt).
  { apply check_with_database_ok. intros w' Hw'. left. congruence. }
  assert (Hf : eq_str w "true" = false).
  { destruct w; try reflexivity. simpl. apply bool_decide_eq_false_2. congruence. }
  repeat split.
  - exact Hc.
  - unfold check_valid, require. rewrite Hc.
    rewrite !lookup_insert_ne by discriminate.
    assert (Hc' : check_with_database py (<["WithDatabase" := PStr "true"]> d)
                  = inr tt).
    { apply check_with_database_ok. intros w'.
      rewrite lookup_insert_eq. intros [= <-]. by left. }
    by rewrite Hc'.
  - unfold with_database, getitem. rewrite Hw. simpl. by rewrite Hf.
  - intros Hv. apply check_valid_inv in Hv.
    destruct (url_validated py d w Hv Hw) as (h & z & u & Hh & Hp & Hu & Hurl).
    exists h, z, u. rewrite Hurl, Hf. done.
Qed.

Lemma with_database_compared_as_given_witness :
  let d := Sample.descriptor (PStr "True") (Sample.db_with_port (PInt 5432)) in
  check_with_database Sample.py d = inr tt /\
  check_valid Sample.py d
    = check_valid Sample.py (<["WithDatabase" := PStr "true"]> d) /\
  with_database d = inr false /\
  (check_valid Sample.py d = inr tt ->
   exists h z u,
     host d = inr h /\ port d = inr (PInt z) /\ user d = inr u /\
     url Sample.py d = inr ("postgresql://" +:+ py_str Sample.py h +:+ ":"
                            +:+ pretty z +:+ "?user=" +:+ py_str Sample.py u)).
Proof.
  apply (with_database_compared_as_given Sample.py
           (Sample.descriptor (PStr "True") (Sample.db_with_port (PInt 5432)))
           (PStr "True")).
  - vm_compute; reflexivity.
  - vm_compute; reflexivity.
  - discriminate.
Defined.

(** C6, at its failing input. With every field present and the port
    ["abc"], validation fails at the port, after the host and before the
    admin user, but with the [TypeError] of [str.isdigit()], whose message
    names no field; the search in the stated order with the error of line 70
    would name the port. The Create handler reports that message. *)
Theorem invalid_port_error_names_no_field :
  let d := Sample.descriptor (PStr "true") (Sample.db_with_port (PStr "abc")) in
  let ev := Sample.event_with_id "Create" (PDict (Sample.db_with_port (PStr "abc"))) in
  check_valid Sample.py d
    = raise TypeError "descriptor 'isdigit' of 'str' object needs an argument" /\
  first_failure (field_checks Sample.py port_integer_error) d
    = raise ValueError "Port is required to be an integer in Database" /\
  fst (create Sample.py Sample.pg ev (Sample.server []))
    = inr (Response_init "FAILED"
             (PStr "Failed to create user, descriptor 'isdigit' of 'str' object needs an argument")
             sentinel).
Proof. repeat split; vm_compute; reflexivity. Qed.

(** ** Statements issued by the handlers *)

Section Traces.

Context {W C K : Type}.
Variable py : interp.
Variable pg : driver W C K.

Lemma issued_between_refl P (s s' : st W) :
  issued s' = issued s -> issued_between P s s'.
Proof. intros H. exists []. by rewrite H, app_nil_r. Qed.

Lemma issued_between_trans P (s1 s2 s3 : st W) :
  issued_between P s1 s2 -> issued_between P s2 s3 -> issued_between P s1 s3.
Proof.
  intros (q1 & H1 & F1) (q2 & H2 & F2). exists (q1 ++ q2)%list. split.
  - by rewrite H2, H1, app_assoc.
  - by apply Forall_app.
Qed.

Lemma issues_mret {A} P (a : A) : issues_only P (mret (W:=W) a).
Proof. intros s r s' [= _ <-]. by apply issued_between_refl. Qed.

Lemma issues_mraise {A} P c msg : issues_only P (@mraise W A c msg).
Proof. intros s r s' [= _ <-]. by apply issued_between_refl. Qed.

Lemma issues_lift {A} P (x : res A) : issues_only P (lift (W:=W) x).
Proof. intros s r s' [= _ <-]. by apply issued_between_refl. Qed.

Lemma issues_call {A} P (op : W -> res A * W) : issues_only P (call op).
Proof.
  intros s r s'. unfold call. destruct (op (world s)) as [r0 w].
  intros [= _ <-]. by apply issued_between_refl.
Qed.

Lemma issues_execute (P : stmt -> Prop) k q : P q -> issues_only P (execute pg k q).
Proof.
  intros Hq s r s'. unfold execute. destruct (pg_execute pg k q (world s)) as [r0 w].
  intros [= _ <-]. exists [q]. split; [reflexivity | by constructor].
Qed.

Lemma issues_mbind {A B} P (m : M W A) (k : A -> M W B) :
  issues_only P m -> (forall a, issues_only P (k a)) -> issues_only P (mbind m k).
Proof.
  intros Hm Hk s r s'. unfold mbind.
  destruct (m s) as [[e|a] s1] eqn:E1.
  - intros [= _ <-]. eauto.
  - intros E2. eapply issued_between_trans; [eapply Hm | eapply Hk]; eauto.
Qed.

Lemma issues_catch {A} P (m : M W A) (h : exn -> M W A) :
  issues_only P m -> (forall e, issues_only P (h e)) -> issues_only P (catch m h).
Proof.
  intros Hm Hh s r s'. unfold catch.
  destruct (m s) as [[e|a] s1] eqn:E1.
  - intros E2. eapply issued_between_trans; [eapply Hm | eapply Hh]; eauto.
  - intros [= _ <-]. eauto.
Qed.

Lemma issues_with_exit {A} P (exit : M W unit) (body : M W A) :
  issues_only P exit -> issues_only P body -> issues_only P (with_exit exit body).
Proof.
  intros He Hb s r s'. unfold with_exit.
  destruct (body s) as [r1 s1] eqn:E1.
  destruct (exit s1) as [[e|[]] s2] eqn:E2; intros [= _ <-];
    (eapply issued_between_trans; [eapply Hb | eapply He]; eauto).
Qed.

Lemma issues_get_connection P (self : PostgresDBUser C) :
  issues_only P (@get_connection W C self).
Proof.
  unfold get_connection. destruct (connection self);
    [apply issues_mret | apply issues_mraise].
Qed.

Lemma issues_with_cursor {A} P self (body : K -> M W A) :
  (forall k, issues_only P (body k)) -> issues_only P (with_cursor pg self body).
Proof.
  intros Hb. unfold with_cursor.
  apply issues_mbind; [apply issues_get_connection | intros c].
  apply issues_mbind; [apply issues_call | intros k].
  apply issues_with_exit; [apply issues_call | apply Hb].
Qed.

Lemma issues_connect P self : issues_only P (connect pg self).
Proof.
  unfold connect. apply issues_catch; [| intros e; apply issues_mraise].
  apply issues_mbind; [apply issues_lift | intros ci].
  apply issues_mbind; [apply issues_call | intros c]. apply issues_mret.
Qed.

Lemma issues_close P self : issues_only P (close pg self).
Proof.
  unfold close. apply issues_mbind;
    [apply issues_get_connection | intros c; apply issues_call].
Qed.

(** [exists] issues nothing but the catalog lookup. *)
Lemma issues_exists self :
  issues_only (fun q => sql q = select_sql) (exists_ pg self).
Proof.
  unfold exists_. apply issues_with_cursor. intros k.
  apply issues_mbind; [apply issues_lift | intros u].
  apply issues_mbind; [by apply issues_execute | intros _].
  apply issues_mbind; [apply issues_call | intros rows]. apply issues_mret.
Qed.

(** The descriptor [connect] returns holds the same dictionary. *)
Lemma connect_items self s u s1 :
  connect pg self s = (inr u, s1) -> items u = items self.
Proof.
  unfold connect, catch, mbind, lift, call, mret, mraise.
  destruct (get_connect_info (items self)) as [e|ci]; [discriminate|].
  destruct (pg_connect pg ci (world s)) as [[e|c] w]; [discriminate|].
  by intros [= <- _].
Qed.

(** A failed [connect] raises a [ValueError] that says so. *)
Lemma connect_failure self s e s1 :
  connect pg self s = (inl e, s1) ->
  exists e0, e = Exn ValueError ("Failed to connect, " +:+ message e0).
Proof.
  unfold connect, catch, mbind, lift, call, mret, mraise.
  destruct (get_connect_info (items self)) as [e0|ci].
  - intros [= <- _]. eauto.
  - destruct (pg_connect pg ci (world s)) as [[e0|c] w]; [|discriminate].
    intros [= <- _]. eauto.
Qed.

End Traces.

(** ** The handlers *)

Section HandlerFacts.

Context {W C K : Type}.
Variable py : interp.
Variable pg : driver W C K.

(** How [with PostgresDBUser(event) as user] runs once the descriptor is
    built and connected. *)
Lemma with_user_run {A} ev (body : PostgresDBUser C -> M W A) s d u s1 :
  PostgresDBUser_init py ev = inr d ->
  connect pg (Obj d None) s = (inr u, s1) ->
  with_user py pg ev body s =
  match with_exit (close pg u) (body u) s1 with
  | (inr a, s2) => (inr (a, u), s2)
  | (inl e, s2) => (inl e, s2)
  end.
Proof.
  intros Hi Hc. unfold with_user, mbind, lift. rewrite Hi, Hc.
  destruct (with_exit _ _ s1) as [[e|a] s2]; reflexivity.
Qed.

Lemma with_user_init_failure {A} ev (body : PostgresDBUser C -> M W A) s e :
  PostgresDBUser_init py ev = inl e -> with_user py pg ev body s = (inl e, s).
Proof. intros Hi. unfold with_user, mbind, lift. by rewrite Hi. Qed.

Lemma with_user_connect_failure {A} ev (body : PostgresDBUser C -> M W A) s d e s1 :
  PostgresDBUser_init py ev = inr d ->
  connect pg (Obj d None) s = (inl e, s1) ->
  with_user py pg ev body s = (inl e, s1).
Proof. intros Hi Hc. unfold with_user, mbind, lift. by rewrite Hi, Hc. Qed.

(** After the block, [user] holds a descriptor that [__init__] built. *)
Lemma with_user_inv {A} ev (body : PostgresDBUser C -> M W A) s a u s' :
  with_user py pg ev body s = (inr (a, u), s') ->
  PostgresDBUser_init py ev = inr (items u).
Proof.
  unfold with_user, mbind, lift.
  destruct (PostgresDBUser_init py ev) as [e|d]; [discriminate|].
  destruct (connect pg (Obj d None) s) as [[e|u0] s1] eqn:Hc; [discriminate|].
  destruct (with_exit _ _ s1) as [[e|a0] s2]; [discriminate|].
  intros [= _ <- _]. apply connect_items in Hc. by rewrite Hc.
Qed.

Lemma issues_with_user {A} P ev (body : PostgresDBUser C -> M W A) :
  (forall u, issues_only P (body u)) -> issues_only P (with_user py pg ev body).
Proof.
  intros Hb. unfold with_user.
  apply issues_mbind; [apply issues_lift | intros d].
  apply issues_mbind; [apply issues_connect | intros u].
  apply issues_mbind; [| intros a; apply issues_mret].
  apply issues_with_exit; [apply issues_close | apply Hb].
Qed.

(** The identity of a descriptor that [__init__] built is defined. *)
Lemma url_defined ev d :
  PostgresDBUser_init py ev = inr d -> exists id, url py d = inr id.
Proof.
  intros Hi. apply init_inv in Hi as [Hv [w Hw]].
  destruct (url_validated py d w Hv Hw) as (h & z & u & _ & _ & _ & Hurl). eauto.
Qed.

Lemma user_defined ev d :
  PostgresDBUser_init py ev = inr d -> exists name, user d = inr name.
Proof.
  intros Hi. apply init_inv in Hi as [[db u pw h z au ap dn Hu _ _ _ _ _ _ _ _] _].
  exists u. unfold user, getitem. by rewrite Hu.
Qed.

(** The connection arguments of a descriptor that [__init__] built. *)
Lemma connect_info_defined ev d :
  PostgresDBUser_init py ev = inr d -> exists ci, get_connect_info d = inr ci.
Proof.
  intros Hi. apply init_inv in Hi as [[db u pw h z au ap dn _ _ Hd Hh Hp Ha Hap Hn _] _].
  exists (ConnectInfo h (PInt z) dn au ap).
  unfold get_connect_info, database, getitem. rewrite Hd. simpl.
  unfold getitem. by rewrite Hh, Hp, Hn, Ha, Hap.
Qed.

End HandlerFacts.

Section HandlerClaims.

Context {W C K : Type}.
Variable py : interp.
Variable pg : driver W C K.

(** C5, amended. On a Delete event that carries a physical id and passes
    validation, a failed [psycopg2.connect] gives a FAILED response: the
    reason is ['Failed to connect, '] followed by the driver's message, the
    physical id is the event's, and nothing is issued. *)
Theorem delete_connect_failure ev s d ci e w pid :
  PostgresDBUser_init py ev = inr d ->
  ev !! "PhysicalResourceId" = Some pid ->
  get_connect_info d = inr ci ->
  pg_connect pg ci (world s) = (inl e, w) ->
  delete py pg ev s =
  (inr (Response_init "FAILED" (PStr ("Failed to connect, " +:+ message e)) pid),
   St w (issued s)).
Proof.
  intros Hi Hp Hci Hc.
  assert (Hconn : connect pg (Obj d None) s =
                  (inl (Exn ValueError ("Failed to connect, " +:+ message e)),
                   St w (issued s))).
  { unfold connect, catch, mbind, lift, call, mraise. simpl items.
    by rewrite Hci, Hc. }
  unfold delete, delete_block, catch. unfold mbind at 1 2.
  rewrite (with_user_connect_failure py pg ev _ s d _ _ Hi Hconn).
  unfold mbind, lift, mret, getitem. by rewrite Hp.
Qed.

End HandlerClaims.

(** C4, at every input. The Update handler reads the global name [reason],
    which the module never binds: it raises [NameError] before it can build
    a response, whatever the event. *)
Theorem update_raises_name_error (py : interp) (ev : dict) :
  update py ev = raise NameError "global name 'reason' is not defined".
Proof. reflexivity. Qed.

(** ** No error message of construction is empty *)

Section Messages.

Variable py : interp.

Lemma as_pair_message i x e : as_pair py i x = inl e -> message e <> "".
Proof.
  unfold as_pair, raise, ret.
  destruct x as [| | |s|l|d]; try (intros [= <-]; discriminate).
  - destruct s as [|a [|b [|c s]]]; intros [= <-]; discriminate.
  - destruct l as [|k [|v [|y l]]]; intros [= <-]; discriminate.
  - destruct (key_order py d) as [|k [|v [|y l]]]; intros [= <-]; discriminate.
Qed.

Lemma update_from_pairs_message l : forall i d e,
  update_from_pairs py i d l = inl e -> message e <> "".
Proof.
  induction l as [|x l IH]; intros i d e; simpl; [discriminate|].
  destruct (as_pair py i x) as [e1|kv] eqn:Hp; simpl.
  { intros [= <-]. eauto using as_pair_message. }
  destruct (set_any_key d kv.1 kv.2) as [e2|d'] eqn:Hs; simpl; [|apply IH].
  intros [= <-]. destruct (kv.1); simpl in Hs; try discriminate;
    injection Hs as <-; discriminate.
Qed.

Lemma dict_update_message d v e : dict_update py d v = inl e -> message e <> "".
Proof.
  destruct v; simpl; try (intros [= <-]; discriminate);
    try discriminate; apply update_from_pairs_message.
Qed.

Lemma add_defaults_message self e : add_defaults self = inl e -> message e <> "".
Proof.
  unfold add_defaults.
  destruct (match self !! "Database" with Some _ => _ | None => _ end)
    as [e1|self1] eqn:H1; simpl.
  - intros [= <-].
    destruct (self !! "Database") as [db|]; [|discriminate].
    destruct db; simpl in H1; try (injection H1 as <-; discriminate);
      destruct (negb _); simpl in H1; try discriminate;
      injection H1 as <-; discriminate.
  - destruct (self1 !! "WithDatabase"); discriminate.
Qed.

Lemma first_failure_message cs d e :
  Forall (fun c : field_check =>
            forall e', c d = Some e' ->
                       exn_cls e' <> UnicodeEncodeError -> message e' <> "") cs ->
  first_failure cs d = inl e ->
  exn_cls e <> UnicodeEncodeError -> message e <> "".
Proof.
  induction 1 as [|c cs Hc _ IH]; simpl; [discriminate|].
  destruct (c d) as [e'|] eqn:E; [|exact IH]. intros [= <-]. eauto.
Qed.

Lemma check_valid_message d e :
  check_valid py d = inl e -> exn_cls e <> UnicodeEncodeError -> message e <> "".
Proof.
  rewrite check_valid_first_failure. apply first_failure_message.
  unfold field_checks, missing, isdigit_error.
  repeat apply Forall_cons_2; try apply Forall_nil_2; intros e'.
  - destruct (d !! "User"); intros [= <-]; discriminate.
  - destruct (d !! "Password"); intros [= <-]; discriminate.
  - destruct (d !! "WithDatabase") as [w|]; [|discriminate].
    destruct (str_of py w) as [e0|text] eqn:Hs.
    + apply str_of_error in Hs as ->. intros [= <-]. done.
    + cbv zeta. destruct (_ || _); intros [= <-]; discriminate.
  - destruct (d !! "Database") as [[]|]; intros [= <-]; discriminate.
  - destruct (db_of d !! "Host"); intros [= <-]; discriminate.
  - destruct (db_of d !! "Port") as [q|]; [destruct (is_int q)|];
      intros [= <-]; discriminate.
  - destruct (db_of d !! "User"); intros [= <-]; discriminate.
  - destruct (db_of d !! "Password"); intros [= <-]; discriminate.
  - destruct (db_of d !! "DBName"); intros [= <-]; discriminate.
Qed.

(** Every error [__init__] raises carries a message, but for the
    [UnicodeEncodeError] of [str]. *)
Lemma init_message ev e :
  PostgresDBUser_init py ev = inl e ->
  exn_cls e <> UnicodeEncodeError -> message e <> "".
Proof.
  unfold PostgresDBUser_init, getitem. intros H.
  destruct (ev !! "ResourceProperties") as [props|]; simpl in H;
    [|injection H as <-; discriminate].
  destruct (dict_update py ev props) as [e1|self] eqn:Hu; simpl in H.
  { injection H as <-. eauto using dict_update_message. }
  destruct (add_defaults _) as [e2|self'] eqn:Hd; simpl in H.
  { injection H as <-. eauto using add_defaults_message. }
  destruct (check_valid py self') as [e3|[]] eqn:Hv; simpl in H; [|discriminate].
  injection H as <-. eauto using check_valid_message.
Qed.

End Messages.

(** ** The error boundary of the handlers *)

Section Boundary.

Context {W C K : Type}.
Variable py : interp.
Variable pg : driver W C K.

(** The only response returned from inside the block of [create]. *)
Lemma create_block_return ev s r u s' :
  create_block py pg ev s = (inr (Some r, u), s') ->
  exists name,
    r = Response_init "FAILED"
          (PStr ("User " +:+ py_str py name +:+ " already exists")) sentinel.
Proof.
  unfold create_block, with_user. unfold mbind at 1 2 3, lift.
  destruct (PostgresDBUser_init py ev) as [e|d]; [discriminate|].
  destruct (connect pg (Obj d None) s) as [[e|u0] s1]; [discriminate|].
  unfold with_exit, mbind at 1.
  destruct (exists_ pg u0 s1) as [[e|[]] s2]; cbn [negb]; cbv beta iota.
  - destruct (close pg u0 s2) as [[e'|[]] s3]; discriminate.
  - unfold mbind, lift, mret.
    destruct (user (items u0)) as [e|name].
    + destruct (close pg u0 s2) as [[e'|[]] s3]; discriminate.
    + destruct (close pg u0 s2) as [[e'|[]] s3]; [discriminate|].
      intros [= <- _ _]. eauto.
  - unfold mbind, mret.
    destruct (create_role pg u0 s2) as [[e|[]] s3];
      destruct (close pg u0 s3) as [[e'|[]] s4]; discriminate.
Qed.

(** The Create handler always returns a response, decided by its block. *)
Lemma create_total ev s :
  exists r,
    create py pg ev s = (inr r, snd (create_block py pg ev s)) /\
    match fst (create_block py pg ev s) with
    | inl e =>
        r = Response_init "FAILED"
              (PStr ("Failed to create user, " +:+ message e)) sentinel
    | inr (Some r', _) => r = r'
    | inr (None, u) =>
        exists id, url py (items u) = inr id /\
                   r = Response_init "SUCCESS" (PStr "") (PStr id)
    end.
Proof.
  unfold create, catch. unfold mbind at 1 2.
  destruct (create_block py pg ev s) as [[e|[[r'|] u]] s1] eqn:Hb; cbn [fst snd].
  - eexists. split; reflexivity.
  - eexists. split; reflexivity.
  - apply with_user_inv in Hb. destruct (url_defined py ev _ Hb) as [id Hid].
    unfold mbind, lift, mret. rewrite Hid. eexists. split; [reflexivity|]. eauto.
Qed.

(** C7, amended. Create: every error raised in the block is caught and
    becomes a FAILED response with the sentinel id and the reason ['Failed to
    create user, ' + message]; the handler always returns, and a FAILED
    response has a non-empty reason. Delete, on an event that carries a
    physical id: every error raised in the block is caught and becomes a
    FAILED response with that id whose reason is the error's message as it
    is, the empty string when the message is empty; the handler always
    returns. The message of a connection error is never empty, and that of a
    validation error is empty only for the [UnicodeEncodeError] of [str]. *)
Theorem errors_become_failed_responses :
  (forall ev s, exists r s',
     create py pg ev s = (inr r, s') /\
     (forall e s1, create_block py pg ev s = (inl e, s1) ->
        r = Response_init "FAILED"
              (PStr ("Failed to create user, " +:+ message e)) sentinel) /\
     (Status r = "SUCCESS" \/
      (Status r = "FAILED" /\ PhysicalResourceId r = sentinel /\
       exists m, Reason r = PStr m /\ m <> ""))) /\
  (forall ev s pid,
     ev !! "PhysicalResourceId" = Some pid ->
     delete py pg ev s =
     match delete_block py pg ev s with
     | (inl e, s') => (inr (Response_init "FAILED" (PStr (message e)) pid), s')
     | (inr _, s') => (inr (Response_init "SUCCESS" (PStr "") pid), s')
     end) /\
  (forall ev e,
     PostgresDBUser_init py ev = inl e ->
     exn_cls e <> UnicodeEncodeError -> message e <> "") /\
  (forall self s e s1, connect pg self s = (inl e, s1) -> message e <> "").
Proof.
  split; [|split; [|split]].
  - intros ev s. destruct (create_total ev s) as (r & Hc & Hr).
    exists r, (snd (create_block py pg ev s)). split; [exact Hc|].
    destruct (create_block py pg ev s) as [[e|[[r'|] u]] s1] eqn:Hb;
      cbn [fst snd] in *.
    + split; [by intros e' s1' [= <- _]|]. right. subst r. simpl.
      repeat split. eexists. split; [reflexivity | discriminate].
    + split; [discriminate|]. right. subst r'.
      destruct (create_block_return _ _ _ _ _ Hb) as [name ->]. simpl.
      repeat split. eexists. split; [reflexivity | discriminate].
    + split; [discriminate|]. left. by destruct Hr as (id & _ & ->).
  - intros ev s pid Hp. unfold delete, catch. unfold mbind at 1 2.
    destruct (delete_block py pg ev s) as [[e|a] s1];
      unfold mbind, lift, mret, getitem; by rewrite Hp.
  - apply init_message.
  - intros self s e s1 H. apply connect_failure in H as [e0 ->]. discriminate.
Qed.

End Boundary.

(** ** The physical identity *)

Lemma all_chars_impl (P Q : ascii -> bool) s :
  (forall c, P c = true -> Q c = true) ->
  all_chars P s = true -> all_chars Q s = true.
Proof.
  intros HPQ. induction s as [|c s IH]; simpl; [done|].
  intros [Hc Hs]%andb_true_iff. apply andb_true_iff. auto.
Qed.

(** A string cut at its first character outside [P] is cut in one way only. *)
Lemma split_unique (P : ascii -> bool) a : forall c b d x y,
  all_chars P a = true -> all_chars P c = true ->
  P x = false -> P y = false ->
  a +:+ String x b = c +:+ String y d -> a = c /\ x = y /\ b = d.
Proof.
  induction a as [|k a IH]; intros [|k' c] b d x y Ha Hc Hx Hy; simpl in *.
  - by intros [= -> ->].
  - intros [= -> _]. apply andb_true_iff in Hc as [Hk _]. congruence.
  - intros [= -> _]. apply andb_true_iff in Ha as [Hk _]. congruence.
  - intros [= -> H]. apply andb_true_iff in Ha as [_ Ha].
    apply andb_true_iff in Hc as [_ Hc].
    destruct (IH c b d x y Ha Hc Hx Hy H) as (-> & -> & ->). done.
Qed.

Lemma pretty_N_char_num x : is_num_char (pretty_N_char x) = true.
Proof. unfold pretty_N_char. by repeat case_match. Qed.

Lemma pretty_N_go_num x : forall s,
  all_chars is_num_char s = true -> all_chars is_num_char (pretty_N_go x s) = true.
Proof.
  induction (N.lt_wf_0 x) as [x _ IH]. intros s Hs.
  assert (x = 0 \/ 0 < x)%N as [-> | Hpos] by lia.
  - by rewrite pretty_N_go_0.
  - rewrite pretty_N_go_step by done. apply IH; [by apply N.div_lt|].
    simpl. by rewrite pretty_N_char_num.
Qed.

Lemma pretty_N_num (x : N) : all_chars is_num_char (pretty x) = true.
Proof.
  unfold pretty, pretty_N. case_decide; [reflexivity|]. by apply pretty_N_go_num.
Qed.

(** A printed integer is made of digits and a sign. *)
Lemma pretty_Z_num (z : Z) : all_chars is_num_char (pretty z) = true.
Proof.
  destruct z as [|p|p]; unfold pretty, pretty_Z; [reflexivity | |].
  - apply (pretty_N_num (Npos p)).
  - simpl. apply (pretty_N_num (Npos p)).
Qed.

Lemma plain_no_colon s :
  plain s -> all_chars (fun c => negb (c =? ":")%char) s = true.
Proof.
  apply all_chars_impl. intros c. unfold is_sep.
  destruct (c =? ":")%char; [discriminate | done].
Qed.

Lemma plain_no_question s :
  plain s -> all_chars (fun c => negb (c =? "?")%char) s = true.
Proof.
  apply all_chars_impl. intros c. unfold is_sep.
  destruct (c =? "?")%char; [by rewrite orb_true_r | done].
Qed.

Section Identity.

Variable py : interp.

(** The format is one-to-one on plain hosts and users. *)
Lemma url_format_inj wd wd' h h' z z' u u' :
  plain h -> plain h' -> plain u -> plain u' ->
  url_format py wd (PStr h) (PInt z) (PStr u)
    = url_format py wd' (PStr h') (PInt z') (PStr u') ->
  wd = wd' /\ h = h' /\ z = z' /\ u = u'.
Proof.
  intros Hh Hh' Hu Hu'. unfold url_format. simpl py_str.
  pose proof (pretty_Z_num z) as Hz. pose proof (pretty_Z_num z') as Hz'.
  destruct wd, wd'; intros H.
  - apply (inj (String.app "postgresql:")) in H.
    apply (split_unique (fun c => negb (c =? ":")%char)) in H
      as (-> & _ & H); [|by apply plain_no_colon..|done|done].
    apply (split_unique is_num_char) in H as (Hp & _ & H); [|done..].
    apply (inj pretty) in Hp as ->.
    apply (split_unique (fun c => negb (c =? "?")%char)) in H
      as (-> & _ & _); [done|by apply plain_no_question..|done|done].
  - apply (inj (String.app "postgresql:")) in H. exfalso.
    destruct h as [|c h]; simpl in H; [discriminate|].
    injection H as -> _. unfold plain in Hh. simpl in Hh. discriminate.
  - apply (inj (String.app "postgresql:")) in H. exfalso.
    destruct h' as [|c h']; simpl in H; [discriminate|].
    injection H as <- _. unfold plain in Hh'. simpl in Hh'. discriminate.
  - apply (inj (String.app "postgresql://")) in H.
    apply (split_unique (fun c => negb (c =? ":")%char)) in H
      as (-> & _ & H); [|by apply plain_no_colon..|done|done].
    apply (split_unique is_num_char) in H as (Hp & _ & H); [|done..].
    apply (inj pretty) in Hp as ->.
    by apply (inj (String.app "user=")) in H as ->.
Qed.

End Identity.

Section IdentityClaim.

Variable py : interp.

(** C3, amended. The physical id of a successful Create is the identity of
    the descriptor built from the event; that identity is decided by the
    WithDatabase flag, the host, the port and the user alone, so identical
    descriptors get identical ids and the password plays no part; and two
    identities with plain hosts and users (no [:], [/] or [?]) are equal only
    if flag, host, port and user are. *)
Theorem identity_of_four_fields :
  (forall W C K (pg : driver W C K) ev s r s',
     create py pg ev s = (inr r, s') -> Status r = "SUCCESS" ->
     exists d id,
       PostgresDBUser_init py ev = inr d /\ url py d = inr id /\
       PhysicalResourceId r = PStr id) /\
  (forall d d',
     with_database d = with_database d' -> host d = host d' ->
     port d = port d' -> user d = user d' -> url py d = url py d') /\
  (forall d pw, url py (<["Password" := pw]> d) = url py d) /\
  (forall wd wd' h h' z z' u u',
     plain h -> plain h' -> plain u -> plain u' ->
     url_format py wd (PStr h) (PInt z) (PStr u)
       = url_format py wd' (PStr h') (PInt z') (PStr u') ->
     wd = wd' /\ h = h' /\ z = z' /\ u = u').
Proof.
  split; [|split; [|split]].
  - intros W C K pg ev s r s' Hc Hs.
    destruct (create_total py pg ev s) as (r0 & Hc0 & Hr).
    rewrite Hc in Hc0. injection Hc0 as <- _.
    destruct (create_block py pg ev s) as [[e|[[r'|] u]] s1] eqn:Hb;
      cbn [fst snd] in Hr.
    + subst r. discriminate.
    + subst r'. destruct (create_block_return _ _ _ _ _ _ _ Hb) as [name ->].
      discriminate.
    + destruct Hr as (id & Hid & ->). apply with_user_inv in Hb. eauto.
  - intros d d' Hw Hh Hp Hu. unfold url. by rewrite Hw, Hh, Hp, Hu.
  - intros d pw. unfold url, with_database, host, port, user, database, getitem.
    by rewrite !lookup_insert_ne by discriminate.
  - apply url_format_inj.
Qed.

End IdentityClaim.

(** C3 as stated fails: flag true with host [//db], port 1, user [2] and
    flag false with host [db:1], port 2, user [2] are two validated
    descriptors that differ in flag, host and port and have one identity. *)
Lemma identity_collision :
  let d1 := Sample.descriptor_of (PStr "true") "//db" 1 "2" in
  let d2 := Sample.descriptor_of (PStr "false") "db:1" 2 "2" in
  check_valid Sample.py d1 = inr tt /\ check_valid Sample.py d2 = inr tt /\
  url Sample.py d1 = inr "postgresql://db:1:2?user=2" /\
  url Sample.py d2 = inr "postgresql://db:1:2?user=2" /\
  with_database d1 <> with_database d2 /\ host d1 <> host d2 /\
  port d1 <> port d2.
Proof. repeat split; try (vm_compute; reflexivity); vm_compute; discriminate. Qed.

(** ** The claims at the scenarios *)

Lemma identity_of_four_fields_witness :
  (exists d id,
     PostgresDBUser_init Sample.py Sample.create_event = inr d /\
     url Sample.py d = inr id /\
     PStr "postgresql:db1:5432:app?user=app" = PStr id) /\
  url Sample.py (<["Password" := PStr "other"]>
                   (Sample.descriptor_of (PStr "true") "db1" 5432 "app"))
    = url Sample.py (Sample.descriptor_of (PStr "true") "db1" 5432 "app") /\
  (true = true /\ "db1" = "db1" /\ 5432 = 5432 /\ "app" = "app").
Proof.
  destruct (identity_of_four_fields Sample.py) as (Hid & _ & Hpw & Hinj).
  split; [|split].
  - apply (Hid _ _ _ Sample.pg Sample.create_event (Sample.server [])
             (Response_init "SUCCESS" (PStr "")
                (PStr "postgresql:db1:5432:app?user=app"))
             (St (Sample.PgWorld true ["app"] [])
                 [Stmt select_sql [Lit (PStr "app")];
                  Stmt create_sql [AsIs (PStr "app"); Lit (PStr "x")]])).
    + vm_compute. reflexivity.
    + reflexivity.
  - apply Hpw.
  - apply (Hinj true true "db1" "db1" 5432 5432 "app" "app");
      vm_compute; reflexivity.
Defined.

Lemma delete_connect_failure_witness :
  delete Sample.py Sample.pg Sample.delete_event Sample.down =
  (inr (Response_init "FAILED"
          (PStr "Failed to connect, could not connect to server") (PStr "X")),
   Sample.down).
Proof.
  eapply (delete_connect_failure Sample.py Sample.pg Sample.delete_event
            Sample.down _ _ (Exn DriverError "could not connect to server")
            (Sample.PgWorld false [] []) (PStr "X")).
  - vm_compute. reflexivity.
  - vm_compute. reflexivity.
  - vm_compute. reflexivity.
  - vm_compute. reflexivity.
Defined.

(** C5 as stated fails: with the server down, the Delete handler answers
    FAILED, not SUCCESS; the physical id is still the event's. *)
Lemma delete_connect_failure_is_failed :
  exists r s',
    delete Sample.py Sample.pg Sample.delete_event Sample.down = (inr r, s') /\
    Status r = "FAILED" /\ Status r <> "SUCCESS" /\
    Reason r = PStr "Failed to connect, could not connect to server" /\
    PhysicalResourceId r = PStr "X".
Proof. do 2 eexists. split; [vm_compute; reflexivity|]. by repeat split. Qed.

Lemma errors_become_failed_responses_witness :
  (exists r s',
     create Sample.py Sample.pg Sample.create_event Sample.down = (inr r, s') /\
     r = Response_init "FAILED"
           (PStr "Failed to create user, Failed to connect, could not connect to server")
           sentinel) /\
  delete Sample.py Sample.pg
    (Sample.event_with_id "Delete" (PStr "appdb")) (Sample.server [])
  = (inr (Response_init "FAILED"
            (PStr "'unicode' object does not support item assignment") (PStr "X")),
     Sample.server []).
Proof.
  destruct (errors_become_failed_responses Sample.py Sample.pg)
    as (Hcreate & Hdelete & _ & _).
  split.
  - destruct (Hcreate Sample.create_event Sample.down) as (r & s' & Hc & Hr & _).
    exists r, s'. split; [exact Hc|].
    apply (Hr (Exn ValueError "Failed to connect, could not connect to server")
              Sample.down).
    reflexivity.
  - rewrite (Hdelete (Sample.event_with_id "Delete" (PStr "appdb"))
               (Sample.server []) (PStr "X")) by reflexivity.
    reflexivity.
Defined.

(** C7 as stated fails: on the Delete event of a rollback whose
    [WithDatabase] is not ASCII, [str] raises a [UnicodeEncodeError] with an
    empty message inside the handler, and Delete answers FAILED with an
    empty reason. *)
Lemma delete_answers_empty_reason :
  PostgresDBUser_init Sample.py Sample.rollback_event
    = inl (Exn UnicodeEncodeError "") /\
  delete Sample.py Sample.pg Sample.rollback_event (Sample.server [])
    = (inr (Response_init "FAILED" (PStr "") (PStr "could-not-create")),
       Sample.server []).
Proof. split; vm_compute; reflexivity. Qed.

(** The same happens with an error of the driver that carries no message. *)
Example delete_answers_empty_reason_of_driver :
  fst (delete Sample.py Sample.pg_silent Sample.delete_event (Sample.server ["app"]))
  = inr (Response_init "FAILED" (PStr "") (PStr "X")).
Proof. vm_compute. reflexivity. Qed.

Lemma port_check_never_integer_error_witness :
  port_is_integer (PInt 5432) = inr true /\
  port_is_integer (PStr "5432") = inl isdigit_error.
Proof.
  destruct (port_check_never_integer_error Sample.py) as (Hint & Hstr & _ & _).
  split.
  - apply Hint. by exists 5432.
  - apply Hstr. reflexivity.
Defined.

(** ** Further properties of the descriptor *)

Section DescriptorProperties.

Variable py : interp.

(** The first step of [add_defaults] touches the [Database] entry only, and
    leaves there a value that contains [Port]. *)
Lemma add_defaults_shape self self' :
  add_defaults self = inr self' ->
  (forall db, self' !! "Database" = Some db -> contains "Port" db = inr true) /\
  (forall k, k <> "Database" -> k <> "WithDatabase" -> self' !! k = self !! k) /\
  (forall w, self !! "WithDatabase" = Some w -> self' !! "WithDatabase" = Some w) /\
  (self !! "WithDatabase" = None -> self' !! "WithDatabase" = Some (PStr "true")) /\
  (forall db p, self !! "Database" = Some (PDict db) -> db !! "Port" = Some p ->
                self' !! "Database" = Some (PDict db)).
Proof.
  unfold add_defaults. intros H.
  destruct (match self !! "Database" with Some _ => _ | None => _ end)
    as [|self1] eqn:H1; [discriminate|]. simpl in H.
  assert (Hs1 : (forall db, self1 !! "Database" = Some db ->
                            contains "Port" db = inr true) /\
                (forall k, k <> "Database" -> self1 !! k = self !! k) /\
                (forall db p, self !! "Database" = Some (PDict db) ->
                              db !! "Port" = Some p ->
                              self1 !! "Database" = Some (PDict db))).
  { destruct (self !! "Database") as [db0|] eqn:H0.
    - destruct (contains "Port" db0) as [|has] eqn:Hc; [discriminate|].
      simpl in H1. destruct has; simpl in H1.
      + injection H1 as <-. split; [|split].
        * intros db. rewrite H0. by intros [= <-].
        * done.
        * intros db p [= ->] _. exact H0.
      + destruct (setitem db0 "Port" (PInt 5432)) as [|db1] eqn:Hset;
          [discriminate|]. simpl in H1. injection H1 as <-.
        destruct db0 as [| | | | |d0]; simpl in Hset; try discriminate.
        injection Hset as <-. split; [|split].
        * intros db. rewrite lookup_insert_eq. intros [= <-]. simpl.
          by rewrite lookup_insert_eq, bool_decide_eq_true_2 by eauto.
        * intros k Hk. by rewrite lookup_insert_ne.
        * intros db p [= <-] Hp. simpl in Hc.
          rewrite bool_decide_eq_true_2 in Hc by eauto. discriminate.
    - injection H1 as <-. split; [|split]; [|done|discriminate].
      intros db. rewrite H0. discriminate. }
  destruct Hs1 as (Hport & Hother & Hkeep).
  destruct (self1 !! "WithDatabase") as [w1|] eqn:Hw; injection H as <-.
  - repeat split; try done.
    + intros k Hk _. by apply Hother.
    + intros w Hw'. rewrite <- Hw', <- Hother by discriminate. done.
    + intros Hn. rewrite Hother in Hw by discriminate. congruence.
  - repeat split.
    + intros db. rewrite lookup_insert_ne by discriminate. apply Hport.
    + intros k Hk Hk'. rewrite lookup_insert_ne by done. by apply Hother.
    + intros w Hw'. rewrite Hother in Hw by discriminate. congruence.
    + intros _. by rewrite lookup_insert_eq.
    + intros db p Hdb Hp. rewrite lookup_insert_ne by discriminate. eauto.
Qed.

(** [add_defaults] puts the default port into a [Database] dictionary that
    has none. *)
Lemma add_defaults_inserts_port self self' db :
  self !! "Database" = Some (PDict db) -> db !! "Port" = None ->
  add_defaults self = inr self' ->
  self' !! "Database" = Some (PDict (<["Port" := PInt 5432]> db)).
Proof.
  intros Hdb Hp. unfold add_defaults. rewrite Hdb. simpl.
  rewrite bool_decide_eq_false_2 by (rewrite Hp; by intros [? ?]). simpl.
  destruct (<["Database" := _]> self !! "WithDatabase") eqn:Hw; intros [= <-].
  - by rewrite lookup_insert_eq.
  - rewrite lookup_insert_ne by discriminate. by rewrite lookup_insert_eq.
Qed.

(** X10. [add_defaults] is idempotent: applied to its own result it changes
    nothing. It only ever writes [WithDatabase] and the [Port] inside
    [Database]: every other key keeps its value, and a [WithDatabase] or a
    [Port] that is already there is not overwritten. *)
Theorem add_defaults_idempotent (self self' : dict) :
  add_defaults self = inr self' ->
  add_defaults self' = inr self' /\
  (forall k, k <> "Database" -> k <> "WithDatabase" -> self' !! k = self !! k) /\
  (forall w, self !! "WithDatabase" = Some w -> self' !! "WithDatabase" = Some w) /\
  (forall db p, self !! "Database" = Some (PDict db) -> db !! "Port" = Some p ->
                self' !! "Database" = Some (PDict db)).
Proof.
  intros H. pose proof (add_defaults_with_database _ _ H) as [w Hw].
  destruct (add_defaults_shape _ _ H) as (Hport & Hother & Hkeep & _ & Hdb).
  split; [|done].
  unfold add_defaults.
  destruct (self' !! "Database") as [db|] eqn:Hd.
  - rewrite (Hport db eq_refl). simpl. by rewrite Hw.
  - simpl. by rewrite Hw.
Qed.

(** X11. [check_valid] accepts exactly the descriptors that hold [User],
    [Password], a [WithDatabase] (if any) whose lowercased text is ["true"]
    or ["false"], and a [Database] dictionary with [Host], an [int] [Port],
    [User], [Password] and [DBName]. *)
Theorem check_valid_accepts_iff (d : dict) :
  check_valid py d = inr tt <-> validated py d.
Proof. split; [apply check_valid_inv | apply validated_check]. Qed.

(** X12. [check_valid] is the search for the first failing check in the
    order user, password, WithDatabase shape, Database presence and type,
    host, port, admin user, admin password, database name; so a descriptor
    whose earlier fields are in order and whose [Database] has no [Host] is
    rejected with "Host is required in Database", whatever its [Port]. *)
Theorem check_valid_order_host_first :
  (forall d, check_valid py d = first_failure (field_checks py isdigit_error) d) /\
  (forall d db u pw,
     d !! "User" = Some u -> d !! "Password" = Some pw ->
     check_with_database py d = inr tt ->
     d !! "Database" = Some (PDict db) -> db !! "Host" = None ->
     check_valid py d = raise ValueError "Host is required in Database").
Proof.
  split; [apply check_valid_first_failure|].
  intros d db u pw Hu Hp Hw Hd Hh.
  unfold check_valid, check_database, require. by rewrite Hu, Hp, Hw, Hd, Hh.
Qed.

(** What [__init__] returns, step by step, when the properties are a
    dictionary. *)
Lemma init_steps ev props d :
  ev !! "ResourceProperties" = Some (PDict props) ->
  PostgresDBUser_init py ev = inr d ->
  add_defaults (base.delete "ResourceProperties" (props ∪ ev)) = inr d.
Proof.
  intros Hp. unfold PostgresDBUser_init, getitem. rewrite Hp. simpl.
  destruct (add_defaults _) as [|self'] eqn:Hd; [discriminate|]. simpl.
  destruct (check_valid py self') as [|[]]; [discriminate|]. by intros [= <-].
Qed.

(** X13. The descriptor is the event with the resource properties merged
    over it: a resource property wins over an envelope field of the same
    name, an envelope field that no property shadows is carried through
    unchanged, and the [ResourceProperties] entry itself is gone. *)
Theorem init_merges_properties (ev props d : dict) :
  ev !! "ResourceProperties" = Some (PDict props) ->
  PostgresDBUser_init py ev = inr d ->
  d !! "ResourceProperties" = None /\
  (forall k v, props !! k = Some v ->
     k <> "ResourceProperties" -> k <> "Database" -> d !! k = Some v) /\
  (forall k, props !! k = None ->
     k <> "ResourceProperties" -> k <> "Database" -> k <> "WithDatabase" ->
     d !! k = ev !! k).
Proof.
  intros Hp Hi. pose proof (init_steps _ _ _ Hp Hi) as Hd.
  destruct (add_defaults_shape _ _ Hd) as (_ & Hother & Hkeep & _ & _).
  split; [|split].
  - rewrite Hother by discriminate. apply lookup_delete_eq.
  - intros k v Hk Hrp Hdb.
    assert (Hm : base.delete "ResourceProperties" (props ∪ ev) !! k = Some v).
    { rewrite lookup_delete_ne by done. by apply lookup_union_Some_l. }
    destruct (decide (k = "WithDatabase")) as [-> | Hwd]; [by apply Hkeep|].
    by rewrite Hother.
  - intros k Hk Hrp Hdb Hwd. rewrite Hother by done.
    rewrite lookup_delete_ne by done. by apply lookup_union_r.
Qed.

(** X14. The defaults reach the identity: for an event that gives no
    [WithDatabase] and whose [Database] dictionary gives no [Port], the
    flag is true, the port is 5432, and the identity is
    [postgresql:<host>:5432:<user>?user=<user>]. *)
Theorem init_defaults (ev props db d : dict) :
  ev !! "ResourceProperties" = Some (PDict props) ->
  ev !! "WithDatabase" = None -> props !! "WithDatabase" = None ->
  props !! "Database" = Some (PDict db) -> db !! "Port" = None ->
  PostgresDBUser_init py ev = inr d ->
  with_database d = inr true /\ port d = inr (PInt 5432) /\
  exists h u,
    host d = inr h /\ user d = inr u /\
    url py d = inr ("postgresql:" +:+ py_str py h +:+ ":5432:" +:+ py_str py u
                    +:+ "?user=" +:+ py_str py u).
Proof.
  intros Hp Hew Hpw Hdb Hport Hi. pose proof (init_steps _ _ _ Hp Hi) as Hd.
  destruct (add_defaults_shape _ _ Hd) as (_ & _ & _ & Hdef & _).
  assert (Hwd : d !! "WithDatabase" = Some (PStr "true")).
  { apply Hdef. rewrite lookup_delete_ne by discriminate.
    apply lookup_union_None. done. }
  assert (Hdb0 : base.delete "ResourceProperties" (props ∪ ev) !! "Database"
                 = Some (PDict db)).
  { rewrite lookup_delete_ne by discriminate. by apply lookup_union_Some_l. }
  pose proof (add_defaults_inserts_port _ _ _ Hdb0 Hport Hd) as Hdb'.
  apply init_inv in Hi as [Hv _].
  destruct (url_validated py d _ Hv Hwd) as (h & z & u & Hh & Hz & Hu & Hurl).
  assert (Hz' : port d = inr (PInt 5432)).
  { unfold port, database, getitem. rewrite Hdb'. simpl. unfold getitem.
    by rewrite lookup_insert_eq. }
  rewrite Hz in Hz'. injection Hz' as ->.
  split; [|split; [done|]].
  - unfold with_database, getitem. by rewrite Hwd.
  - exists h, u. by rewrite Hurl.
Qed.

End DescriptorProperties.

Section OverwriteAndConnection.

Variable py : interp.

Lemma eq_str_true v s : eq_str v s = true <-> v = PStr s.
Proof.
  destruct v; simpl; try (split; [discriminate | intros [=]]).
  rewrite bool_decide_eq_true. split; [by intros -> | by intros [= ->]].
Qed.

(** X15. [allow_overwrite] is false on a descriptor without a physical id,
    without looking at the identity at all; on a descriptor whose identity
    is [id] it is true exactly when the physical id is the string [id]; so
    recording the computed identity as the physical id makes it true. *)
Theorem allow_overwrite_iff_identity (d : dict) :
  (d !! "PhysicalResourceId" = None -> allow_overwrite py d = inr false) /\
  (forall id, url py d = inr id ->
     (allow_overwrite py d = inr true <-> d !! "PhysicalResourceId" = Some (PStr id)) /\
     allow_overwrite py (<["PhysicalResourceId" := PStr id]> d) = inr true).
Proof.
  split.
  - intros Hn. unfold allow_overwrite.
    rewrite bool_decide_eq_false_2; [done|]. rewrite Hn. by intros [? ?].
  - intros id Hid. split.
    + unfold allow_overwrite, physical_resource_id.
      destruct (d !! "PhysicalResourceId") as [v|] eqn:Hp.
      * rewrite bool_decide_eq_true_2 by eauto. rewrite Hid. simpl.
        split.
        -- intros [= H]. apply eq_str_true in H. by subst.
        -- intros [= ->]. unfold ret. f_equal. by apply eq_str_true.
      * rewrite bool_decide_eq_false_2 by (by intros [? ?]). split; discriminate.
    + unfold allow_overwrite, physical_resource_id.
      rewrite lookup_insert_eq, bool_decide_eq_true_2 by eauto.
      assert (Hurl : url py (<["PhysicalResourceId" := PStr id]> d) = inr id).
      { rewrite <- Hid.
        unfold url, with_database, host, port, user, database, getitem.
        by rewrite !lookup_insert_ne by discriminate. }
      rewrite Hurl. simpl. unfold ret. f_equal. by apply bool_decide_eq_true_2.
Qed.

(** X16. The arguments of [psycopg2.connect] come from the [Database] entry
    alone: for a validated descriptor they are its [Host], [Port], [DBName],
    [User] and [Password], and no other key of the descriptor, the role's
    own [User] and [Password] included, changes them. *)
Theorem connect_info_from_database :
  (forall d, validated py d ->
     exists db h z n au ap,
       d !! "Database" = Some (PDict db) /\
       db !! "Host" = Some h /\ db !! "Port" = Some (PInt z) /\
       db !! "DBName" = Some n /\ db !! "User" = Some au /\
       db !! "Password" = Some ap /\
       get_connect_info d = inr (ConnectInfo h (PInt z) n au ap)) /\
  (forall d k v, k <> "Database" ->
     get_connect_info (<[k := v]> d) = get_connect_info d).
Proof.
  split.
  - intros d [db u pw h z au ap dn _ _ Hd Hh Hp Ha Hap Hn _].
    exists db, h, z, dn, au, ap. repeat (split; [done|]).
    unfold get_connect_info, database, getitem. rewrite Hd. simpl.
    unfold getitem. by rewrite Hh, Hp, Hn, Ha, Hap.
  - intros d k v Hk. unfold get_connect_info, database, getitem.
    by rewrite !lookup_insert_ne by done.
Qed.

End OverwriteAndConnection.

(** ** Further properties of the handlers *)

Section Runs.

Context {W C K : Type}.
Variable py : interp.
Variable pg : driver W C K.

(** A successful [connect] called the driver with the descriptor's
    connection arguments, kept what it returned, and issued nothing. *)
Lemma connect_inv self s u s1 :
  connect pg self s = (inr u, s1) ->
  exists ci c,
    get_connect_info (items self) = inr ci /\
    pg_connect pg ci (world s) = (inr c, world s1) /\
    u = Obj (items self) (Some c) /\ issued s1 = issued s.
Proof.
  unfold connect, catch, mbind, lift, call, mret, mraise.
  destruct (get_connect_info (items self)) as [e|ci]; [discriminate|].
  destruct (pg_connect pg ci (world s)) as [[e|c] w] eqn:Hc; [discriminate|].
  intros [= <- <-]. exists ci, c. by repeat split.
Qed.

Lemma connect_issued self s r s1 :
  connect pg self s = (r, s1) -> issued s1 = issued s.
Proof.
  unfold connect, catch, mbind, lift, call, mret, mraise.
  destruct (get_connect_info (items self)) as [e|ci]; [by intros [= _ <-]|].
  destruct (pg_connect pg ci (world s)) as [[e|c] w]; by intros [= _ <-].
Qed.

(** [close] on a connected descriptor is the driver's [close]. *)
Lemma close_run d c s :
  close pg (Obj d (Some c)) s =
  (fst (pg_close pg c (world s)), St (snd (pg_close pg c (world s))) (issued s)).
Proof.
  unfold close, get_connection, mbind, mret, call. simpl.
  by destruct (pg_close pg c (world s)).
Qed.

(** [exists] issues the catalog lookup on the role's name, or nothing when
    it fails before reaching it. *)
Lemma exists_trace self s r s' :
  exists_ pg self s = (r, s') ->
  (issued s' = issued s /\ exists e, r = inl e) \/
  (exists name, user (items self) = inr name /\
                issued s' = (issued s ++ [Stmt select_sql [Lit name]])%list).
Proof.
  unfold exists_, with_cursor, get_connection, mbind, call, with_exit, lift,
    mret, mraise, execute.
  destruct (connection self) as [c|]; [|intros [= <- <-]; left; eauto].
  destruct (pg_cursor pg c (world s)) as [[e|k] w1]; [intros [= <- <-]; left; eauto|].
  simpl. destruct (user (items self)) as [e|name].
  - destruct (pg_cursor_exit pg k _) as [[e'|[]] w2]; intros [= <- <-];
      left; eauto.
  - destruct (pg_execute pg k _ w1) as [[e|[]] w2]; simpl.
    + destruct (pg_cursor_exit pg k _) as [[e'|[]] w3]; intros [= <- <-];
        right; eauto.
    + destruct (pg_fetchall pg k w2) as [[e|rows] w3]; simpl;
        destruct (pg_cursor_exit pg k _) as [[e'|[]] w4]; intros [= <- <-];
        right; eauto.
Qed.

(** [create], the method, issues the CREATE ROLE statement with the role's
    name spliced in and the password as a literal, or nothing. *)
Lemma create_role_trace self s r s' :
  create_role pg self s = (r, s') ->
  (issued s' = issued s /\ exists e, r = inl e) \/
  (exists name pw,
     user (items self) = inr name /\ password (items self) = inr pw /\
     issued s' = (issued s ++ [Stmt create_sql [AsIs name; Lit pw]])%list).
Proof.
  unfold create_role, with_cursor, get_connection, mbind, call, with_exit, lift,
    mret, mraise, execute.
  destruct (connection self) as [c|]; [|intros [= <- <-]; left; eauto].
  destruct (pg_cursor pg c (world s)) as [[e|k] w1]; [intros [= <- <-]; left; eauto|].
  simpl. destruct (user (items self)) as [e|name].
  - destruct (pg_cursor_exit pg k _) as [[e'|[]] w2]; intros [= <- <-];
      left; eauto.
  - destruct (password (items self)) as [e|pw].
    + destruct (pg_cursor_exit pg k _) as [[e'|[]] w2]; intros [= <- <-];
        left; eauto.
    + destruct (pg_execute pg k _ w1) as [[e|[]] w2]; simpl;
        destruct (pg_cursor_exit pg k _) as [[e'|[]] w3]; intros [= <- <-];
        right; eauto.
Qed.

(** [drop] issues the DROP ROLE statement with the role's name spliced in,
    or nothing. *)
Lemma drop_trace self s r s' :
  drop pg self s = (r, s') ->
  (issued s' = issued s /\ exists e, r = inl e) \/
  (exists name, user (items self) = inr name /\
                issued s' = (issued s ++ [Stmt drop_sql [AsIs name]])%list).
Proof.
  unfold drop, with_cursor, get_connection, mbind, call, with_exit, lift,
    mret, mraise, execute.
  destruct (connection self) as [c|]; [|intros [= <- <-]; left; eauto].
  destruct (pg_cursor pg c (world s)) as [[e|k] w1]; [intros [= <- <-]; left; eauto|].
  simpl. destruct (user (items self)) as [e|name].
  - destruct (pg_cursor_exit pg k _) as [[e'|[]] w2]; intros [= <- <-];
      left; eauto.
  - destruct (pg_execute pg k _ w1) as [[e|[]] w2]; simpl;
      destruct (pg_cursor_exit pg k _) as [[e'|[]] w3]; intros [= <- <-];
      right; eauto.
Qed.

(** A statement was issued only by a call that returned or raised after
    reaching [execute]; the existence check answers only after issuing. *)
Lemma exists_answer_issued self s b s' :
  exists_ pg self s = (inr b, s') ->
  exists name, user (items self) = inr name /\
               issued s' = (issued s ++ [Stmt select_sql [Lit name]])%list.
Proof.
  intros H. apply exists_trace in H as [[_ [e He]] | H]; [discriminate | done].
Qed.

End Runs.

Section Outcomes.

Context {W C K : Type}.
Variable py : interp.
Variable pg : driver W C K.

(** X1. On an event whose role is absent (the descriptor is built, the
    connection is made, [exists] answers false) and whose CREATE ROLE and
    [close] go through, the Create handler returns SUCCESS with an empty
    reason and the identity of the descriptor as physical id, in the state
    [close] left. *)
Theorem create_absent_role ev s d u s1 s2 s3 s4 :
  PostgresDBUser_init py ev = inr d ->
  connect pg (Obj d None) s = (inr u, s1) ->
  exists_ pg u s1 = (inr false, s2) ->
  create_role pg u s2 = (inr tt, s3) ->
  close pg u s3 = (inr tt, s4) ->
  exists id,
    url py d = inr id /\
    create py pg ev s = (inr (Response_init "SUCCESS" (PStr "") (PStr id)), s4).
Proof.
  intros Hi Hc He Hr Hcl.
  destruct (url_defined py ev d Hi) as [id Hid]. exists id. split; [done|].
  pose proof (connect_items pg _ _ _ _ Hc) as Hitems. simpl in Hitems.
  unfold create, create_block, catch. unfold mbind at 1 2.
  rewrite (with_user_run py pg ev _ s d u s1 Hi Hc).
  unfold with_exit, mbind at 1. rewrite He. cbn [negb]. cbv beta iota.
  unfold mbind at 1. rewrite Hr. unfold mret at 1. rewrite Hcl. cbn [fst snd].
  unfold mret at 1. unfold mbind, lift, mret. by rewrite Hitems, Hid.
Qed.

(** X2. On an event that carries a physical id and whose role exists (the
    descriptor is built, the connection is made, [exists] answers true) and
    whose DROP ROLE and [close] go through, the Delete handler returns
    SUCCESS with an empty reason and the incoming physical id. *)
Theorem delete_existing_role ev s d u s1 s2 s3 s4 pid :
  PostgresDBUser_init py ev = inr d ->
  ev !! "PhysicalResourceId" = Some pid ->
  connect pg (Obj d None) s = (inr u, s1) ->
  exists_ pg u s1 = (inr true, s2) ->
  drop pg u s2 = (inr tt, s3) ->
  close pg u s3 = (inr tt, s4) ->
  delete py pg ev s = (inr (Response_init "SUCCESS" (PStr "") pid), s4).
Proof.
  intros Hi Hp Hc He Hd Hcl.
  unfold delete, delete_block, catch. unfold mbind at 1 2.
  rewrite (with_user_run py pg ev _ s d u s1 Hi Hc).
  unfold with_exit, mbind at 1. rewrite He, Hd, Hcl.
  unfold mbind, lift, mret, getitem. by rewrite Hp.
Qed.

(** X3. An event that [__init__] rejects never reaches the driver: Create
    answers FAILED with ['Failed to create user, ' + message] and the
    sentinel id, Delete (on an event with a physical id) answers FAILED with
    the message and that id, and both leave the world and the statement log
    as they were. *)
Theorem rejected_event_reaches_no_driver ev s e :
  PostgresDBUser_init py ev = inl e ->
  create py pg ev s =
    (inr (Response_init "FAILED"
            (PStr ("Failed to create user, " +:+ message e)) sentinel), s) /\
  (forall pid, ev !! "PhysicalResourceId" = Some pid ->
     delete py pg ev s = (inr (Response_init "FAILED" (PStr (message e)) pid), s)).
Proof.
  intros Hi. split.
  - unfold create, create_block, catch. unfold mbind at 1 2.
    by rewrite (with_user_init_failure py pg ev _ s e Hi).
  - intros pid Hp. unfold delete, delete_block, catch. unfold mbind at 1 2.
    rewrite (with_user_init_failure py pg ev _ s e Hi).
    unfold mbind, lift, mret, getitem. by rewrite Hp.
Qed.

(** X4. When [psycopg2.connect] fails on a valid Create event, the handler
    answers FAILED with the reason ['Failed to create user, Failed to
    connect, ' + the driver's message] and the sentinel id, and issues no
    statement. *)
Theorem create_connect_failure ev s d ci e w :
  PostgresDBUser_init py ev = inr d ->
  get_connect_info d = inr ci ->
  pg_connect pg ci (world s) = (inl e, w) ->
  create py pg ev s =
  (inr (Response_init "FAILED"
          (PStr ("Failed to create user, Failed to connect, " +:+ message e))
          sentinel),
   St w (issued s)).
Proof.
  intros Hi Hci Hc.
  assert (Hconn : connect pg (Obj d None) s =
                  (inl (Exn ValueError ("Failed to connect, " +:+ message e)),
                   St w (issued s))).
  { unfold connect, catch, mbind, lift, call, mraise. simpl items.
    by rewrite Hci, Hc. }
  unfold create, create_block, catch. unfold mbind at 1 2.
  by rewrite (with_user_connect_failure py pg ev _ s d _ _ Hi Hconn).
Qed.

(** X8. A failing [close] decides the answer, whatever happened before it:
    after a CREATE ROLE that went through, Create still answers FAILED with
    the sentinel id; after a DROP ROLE that went through, Delete answers
    FAILED with the incoming id. The reason is the message of the error
    [close] raised. *)
Theorem close_failure_decides ev s d u s1 s2 s3 s4 e :
  PostgresDBUser_init py ev = inr d ->
  connect pg (Obj d None) s = (inr u, s1) ->
  close pg u s3 = (inl e, s4) ->
  (exists_ pg u s1 = (inr false, s2) -> create_role pg u s2 = (inr tt, s3) ->
   create py pg ev s =
     (inr (Response_init "FAILED"
             (PStr ("Failed to create user, " +:+ message e)) sentinel), s4)) /\
  (forall pid, ev !! "PhysicalResourceId" = Some pid ->
   exists_ pg u s1 = (inr true, s2) -> drop pg u s2 = (inr tt, s3) ->
   delete py pg ev s = (inr (Response_init "FAILED" (PStr (message e)) pid), s4)).
Proof.
  intros Hi Hc Hcl. split.
  - intros He Hr.
    unfold create, create_block, catch. unfold mbind at 1 2.
    rewrite (with_user_run py pg ev _ s d u s1 Hi Hc).
    unfold with_exit, mbind at 1. rewrite He. cbn [negb]. cbv beta iota.
    unfold mbind at 1. rewrite Hr. unfold mret at 1. by rewrite Hcl.
  - intros pid Hp He Hd.
    unfold delete, delete_block, catch. unfold mbind at 1 2.
    rewrite (with_user_run py pg ev _ s d u s1 Hi Hc).
    unfold with_exit, mbind at 1. rewrite He, Hd, Hcl.
    unfold mbind, lift, mret, getitem. by rewrite Hp.
Qed.

(** X9. An error of the mutating statement is reported, not taken for
    success: when the role was absent at the check and CREATE ROLE raises,
    Create answers FAILED with the sentinel id; when the role was present at
    the check and DROP ROLE raises, Delete answers FAILED with the incoming
    id. With a [close] that goes through, the reason carries the statement's
    error message. *)
Theorem mutation_error_reported ev s d u s1 s2 s3 s4 e :
  PostgresDBUser_init py ev = inr d ->
  connect pg (Obj d None) s = (inr u, s1) ->
  close pg u s3 = (inr tt, s4) ->
  (exists_ pg u s1 = (inr false, s2) -> create_role pg u s2 = (inl e, s3) ->
   create py pg ev s =
     (inr (Response_init "FAILED"
             (PStr ("Failed to create user, " +:+ message e)) sentinel), s4)) /\
  (forall pid, ev !! "PhysicalResourceId" = Some pid ->
   exists_ pg u s1 = (inr true, s2) -> drop pg u s2 = (inl e, s3) ->
   delete py pg ev s = (inr (Response_init "FAILED" (PStr (message e)) pid), s4)).
Proof.
  intros Hi Hc Hcl. split.
  - intros He Hr.
    unfold create, create_block, catch. unfold mbind at 1 2.
    rewrite (with_user_run py pg ev _ s d u s1 Hi Hc).
    unfold with_exit, mbind at 1. rewrite He. cbn [negb]. cbv beta iota.
    unfold mbind at 1. rewrite Hr. by rewrite Hcl.
  - intros pid Hp He Hd.
    unfold delete, delete_block, catch. unfold mbind at 1 2.
    rewrite (with_user_run py pg ev _ s d u s1 Hi Hc).
    unfold with_exit, mbind at 1. rewrite He, Hd, Hcl.
    unfold mbind, lift, mret, getitem. by rewrite Hp.
Qed.

End Outcomes.

Section Statements.

Context {W C K : Type}.
Variable py : interp.
Variable pg : driver W C K.

Lemma close_issued self s r s' :
  close pg self s = (r, s') -> issued s' = issued s.
Proof.
  intros H. destruct (issues_close pg (fun _ => False) self _ _ _ H)
    as ([|q qs] & Hq & F); [by rewrite app_nil_r in Hq | inversion F; done].
Qed.

(** Where [with PostgresDBUser(event) as user] ends: before the driver
    issued anything, or in the state [close] left after the body. *)
Lemma with_user_state {A} ev (body : PostgresDBUser C -> M W A) s :
  issued (snd (with_user py pg ev body s)) = issued s \/
  exists d u s1,
    PostgresDBUser_init py ev = inr d /\
    connect pg (Obj d None) s = (inr u, s1) /\
    snd (with_user py pg ev body s) = snd (close pg u (snd (body u s1))).
Proof.
  unfold with_user, mbind, lift.
  destruct (PostgresDBUser_init py ev) as [e|d]; [by left|].
  destruct (connect pg (Obj d None) s) as [[e|u] s1] eqn:Hc.
  - left. simpl. by eapply connect_issued.
  - right. exists d, u, s1. split; [done|]. split; [done|].
    unfold with_exit, mret.
    destruct (body u s1) as [r s2]. simpl.
    by destruct (close pg u s2) as [[e|[]] s3]; destruct r.
Qed.

Lemma create_state ev s :
  snd (create py pg ev s) = snd (create_block py pg ev s).
Proof. destruct (create_total py pg ev s) as (r & -> & _). done. Qed.

Lemma delete_state ev s :
  snd (delete py pg ev s) = snd (delete_block py pg ev s).
Proof.
  unfold delete, catch. unfold mbind at 1 2.
  destruct (delete_block py pg ev s) as [[e|a] s1];
    unfold mbind, lift, mret; by destruct (getitem ev "PhysicalResourceId").
Qed.

(** X5. Whatever the event and the driver do, the Create handler issues
    nothing, or the catalog lookup on the role's name alone, or that lookup
    followed by one CREATE ROLE with the name spliced in and the password as
    a literal: never a DROP, never a CREATE without the lookup before it,
    never two. *)
Theorem create_statements ev s :
  exists qs,
    issued (snd (create py pg ev s)) = (issued s ++ qs)%list /\
    (qs = [] \/
     exists d name,
       PostgresDBUser_init py ev = inr d /\ user d = inr name /\
       (qs = [Stmt select_sql [Lit name]] \/
        exists pw, password d = inr pw /\
                   qs = [Stmt select_sql [Lit name];
                         Stmt create_sql [AsIs name; Lit pw]])).
Proof.
  rewrite create_state. unfold create_block.
  destruct (with_user_state ev
              (fun u => mbind (exists_ pg u) (fun ex =>
                 if negb ex then mbind (create_role pg u) (fun _ => mret None)
                 else mbind (lift (user (items u))) (fun name =>
                   mret (Some (Response_init "FAILED"
                     (PStr ("User " +:+ py_str py name +:+ " already exists"))
                     sentinel))))) s)
    as [H | (d & u & s1 & Hi & Hc & ->)].
  { exists []. rewrite app_nil_r. by split; [|left]. }
  pose proof (connect_items pg _ _ _ _ Hc) as Hitems. simpl in Hitems.
  pose proof (connect_issued pg _ _ _ _ Hc) as Hs1.
  match goal with |- context [close pg u ?x] =>
    destruct (close pg u x) as [rc sc] eqn:Hcl end.
  apply close_issued in Hcl. simpl. rewrite Hcl. clear Hcl.
  unfold mbind at 1.
  destruct (exists_ pg u s1) as [[e|b] s2] eqn:He; simpl.
  - apply exists_trace in He as [[He _] | (name & Hn & He)].
    + exists []. rewrite app_nil_r, He, Hs1. by split; [|left].
    + exists [Stmt select_sql [Lit name]]. rewrite He, Hs1. split; [done|].
      right. exists d, name. rewrite Hitems in Hn. eauto 10.
  - apply exists_answer_issued in He as (name & Hn & He).
    rewrite Hitems in Hn. destruct b; simpl.
    + unfold mbind, lift, mret. rewrite Hitems, Hn. simpl.
      exists [Stmt select_sql [Lit name]]. rewrite He, Hs1. split; [done|].
      right. exists d, name. eauto 10.
    + unfold mbind.
      destruct (create_role pg u s2) as [[e|[]] s3] eqn:Hr; simpl;
        apply create_role_trace in Hr
          as [[Hr _] | (name' & pw & Hn' & Hpw & Hr)];
        rewrite ?Hitems in *;
        try (exists [Stmt select_sql [Lit name]]; rewrite Hr, He, Hs1;
             split; [done|]; right; exists d, name; by eauto 10);
        (exists [Stmt select_sql [Lit name]; Stmt create_sql [AsIs name; Lit pw]];
         rewrite Hr, He, Hs1, <- app_assoc; simpl;
         assert (name' = name) as -> by congruence;
         split; [done|]; right; exists d, name; by eauto 10).
Qed.

(** X6. Whatever the event and the driver do, the Delete handler issues
    nothing, or the catalog lookup on the role's name alone, or that lookup
    followed by one DROP ROLE with the name spliced in: never a CREATE,
    never a DROP without the lookup before it, never two. *)
Theorem delete_statements ev s :
  exists qs,
    issued (snd (delete py pg ev s)) = (issued s ++ qs)%list /\
    (qs = [] \/
     exists d name,
       PostgresDBUser_init py ev = inr d /\ user d = inr name /\
       (qs = [Stmt select_sql [Lit name]] \/
        qs = [Stmt select_sql [Lit name]; Stmt drop_sql [AsIs name]])).
Proof.
  rewrite delete_state. unfold delete_block.
  destruct (with_user_state ev
              (fun u => mbind (exists_ pg u) (fun ex =>
                 if ex then drop pg u else mret tt)) s)
    as [H | (d & u & s1 & Hi & Hc & ->)].
  { exists []. rewrite app_nil_r. by split; [|left]. }
  pose proof (connect_items pg _ _ _ _ Hc) as Hitems. simpl in Hitems.
  pose proof (connect_issued pg _ _ _ _ Hc) as Hs1.
  match goal with |- context [close pg u ?x] =>
    destruct (close pg u x) as [rc sc] eqn:Hcl end.
  apply close_issued in Hcl. simpl. rewrite Hcl. clear Hcl.
  unfold mbind at 1.
  destruct (exists_ pg u s1) as [[e|b] s2] eqn:He; simpl.
  - apply exists_trace in He as [[He _] | (name & Hn & He)].
    + exists []. rewrite app_nil_r, He, Hs1. by split; [|left].
    + exists [Stmt select_sql [Lit name]]. rewrite He, Hs1. split; [done|].
      right. exists d, name. rewrite Hitems in Hn. eauto 10.
  - apply exists_answer_issued in He as (name & Hn & He).
    rewrite Hitems in Hn. destruct b; simpl.
    + destruct (drop pg u s2) as [r3 s3] eqn:Hd; simpl.
      apply drop_trace in Hd as [[Hd _] | (name' & Hn' & Hd)];
        rewrite ?Hitems in *.
      * exists [Stmt select_sql [Lit name]]. rewrite Hd, He, Hs1.
        split; [done|]. right. exists d, name. eauto 10.
      * exists [Stmt select_sql [Lit name]; Stmt drop_sql [AsIs name]].
        rewrite Hd, He, Hs1, <- app_assoc. simpl.
        assert (name' = name) as -> by congruence.
        split; [done|]. right. exists d, name. eauto 10.
    + exists [Stmt select_sql [Lit name]]. rewrite He, Hs1. split; [done|].
      right. exists d, name. eauto 10.
Qed.

(** X7. Once the connection is made, it is closed on every way out: the
    last thing either handler does to the world is the driver's [close] on
    the connection that [connect] returned. *)
Theorem connection_closed_last ev s d u s1 :
  PostgresDBUser_init py ev = inr d ->
  connect pg (Obj d None) s = (inr u, s1) ->
  exists c,
    connection u = Some c /\
    (exists w, world (snd (create py pg ev s)) = snd (pg_close pg c w)) /\
    (exists w, world (snd (delete py pg ev s)) = snd (pg_close pg c w)).
Proof.
  intros Hi Hc.
  destruct (connect_inv pg _ _ _ _ Hc) as (ci & c & _ & _ & -> & _).
  exists c. split; [done|]. simpl in *. split.
  - rewrite create_state. unfold create_block.
    rewrite (with_user_run py pg ev _ s d _ s1 Hi Hc). unfold with_exit.
    match goal with |- context [let (_, _) := ?b s1 in _] =>
      destruct (b s1) as [rb s2] end.
    rewrite close_run. exists (world s2).
    by destruct (pg_close pg c (world s2)) as [[e|[]] w]; destruct rb.
  - rewrite delete_state. unfold delete_block.
    rewrite (with_user_run py pg ev _ s d _ s1 Hi Hc). unfold with_exit.
    match goal with |- context [let (_, _) := ?b s1 in _] =>
      destruct (b s1) as [rb s2] end.
    rewrite close_run. exists (world s2).
    by destruct (pg_close pg c (world s2)) as [[e|[]] w]; destruct rb.
Qed.

End Statements.

(** ** The further properties at the scenarios *)

Lemma create_absent_role_witness :
  exists id,
    url Sample.py (Sample.built Sample.create_event) = inr id /\
    create Sample.py Sample.pg Sample.create_event (Sample.server [])
      = (inr (Response_init "SUCCESS" (PStr "") (PStr id)),
         snd (close Sample.pg
                (Sample.connected Sample.pg Sample.create_event (Sample.server []))
                (Sample.after_create_role Sample.pg Sample.create_event
                   (Sample.server [])))).
Proof.
  apply (create_absent_role Sample.py Sample.pg Sample.create_event
           (Sample.server []) (Sample.built Sample.create_event)
           (Sample.connected Sample.pg Sample.create_event (Sample.server []))
           (Sample.after_connect Sample.pg Sample.create_event (Sample.server []))
           (Sample.after_exists Sample.pg Sample.create_event (Sample.server []))
           (Sample.after_create_role Sample.pg Sample.create_event
              (Sample.server [])));
    reflexivity.
Defined.

Lemma delete_existing_role_witness :
  delete Sample.py Sample.pg Sample.delete_event (Sample.server ["app"])
  = (inr (Response_init "SUCCESS" (PStr "") (PStr "X")),
     snd (close Sample.pg
            (Sample.connected Sample.pg Sample.delete_event (Sample.server ["app"]))
            (Sample.after_drop Sample.pg Sample.delete_event
               (Sample.server ["app"])))).
Proof.
  apply (delete_existing_role Sample.py Sample.pg Sample.delete_event
           (Sample.server ["app"]) (Sample.built Sample.delete_event)
           (Sample.connected Sample.pg Sample.delete_event (Sample.server ["app"]))
           (Sample.after_connect Sample.pg Sample.delete_event (Sample.server ["app"]))
           (Sample.after_exists Sample.pg Sample.delete_event (Sample.server ["app"]))
           (Sample.after_drop Sample.pg Sample.delete_event (Sample.server ["app"])));
    reflexivity.
Defined.

Lemma rejected_event_reaches_no_driver_witness :
  create Sample.py Sample.pg
    (Sample.event_with_id "Create" (PStr "appdb")) (Sample.server [])
  = (inr (Response_init "FAILED"
            (PStr "Failed to create user, 'unicode' object does not support item assignment")
            sentinel),
     Sample.server []).
Proof.
  apply (proj1 (rejected_event_reaches_no_driver Sample.py Sample.pg
                  (Sample.event_with_id "Create" (PStr "appdb")) (Sample.server [])
                  (Exn TypeError "'unicode' object does not support item assignment")
                  ltac:(reflexivity))).
Defined.

Lemma create_connect_failure_witness :
  create Sample.py Sample.pg Sample.create_event Sample.down
  = (inr (Response_init "FAILED"
            (PStr "Failed to create user, Failed to connect, could not connect to server")
            sentinel),
     Sample.down).
Proof.
  apply (create_connect_failure Sample.py Sample.pg Sample.create_event
           Sample.down (Sample.built Sample.create_event)
           (Sample.value (ConnectInfo PNone PNone PNone PNone PNone)
              (get_connect_info (Sample.built Sample.create_event)))
           (Exn DriverError "could not connect to server")
           (Sample.PgWorld false [] []));
    reflexivity.
Defined.

Lemma connection_closed_last_witness :
  exists c,
    (exists w, world (snd (create Sample.py Sample.pg Sample.create_event
                             (Sample.server [])))
               = snd (pg_close Sample.pg c w)) /\
    (exists w, world (snd (delete Sample.py Sample.pg Sample.create_event
                             (Sample.server [])))
               = snd (pg_close Sample.pg c w)).
Proof.
  destruct (connection_closed_last Sample.py Sample.pg Sample.create_event
              (Sample.server []) (Sample.built Sample.create_event)
              (Sample.connected Sample.pg Sample.create_event (Sample.server []))
              (Sample.after_connect Sample.pg Sample.create_event (Sample.server []))
              ltac:(reflexivity) ltac:(reflexivity))
    as (c & _ & H).
  exists c. exact H.
Defined.

Lemma close_failure_decides_witness :
  create Sample.py Sample.pg_close_fails Sample.create_event (Sample.server [])
  = (inr (Response_init "FAILED"
            (PStr "Failed to create user, connection already closed") sentinel),
     St (Sample.PgWorld true ["app"] [])
        [Stmt select_sql [Lit (PStr "app")];
         Stmt create_sql [AsIs (PStr "app"); Lit (PStr "x")]]) /\
  delete Sample.py Sample.pg_close_fails Sample.delete_event (Sample.server ["app"])
  = (inr (Response_init "FAILED" (PStr "connection already closed") (PStr "X")),
     St (Sample.PgWorld true [] [])
        [Stmt select_sql [Lit (PStr "app")]; Stmt drop_sql [AsIs (PStr "app")]]).
Proof.
  split.
  - apply (proj1 (close_failure_decides Sample.py Sample.pg_close_fails
                    Sample.create_event (Sample.server [])
                    (Sample.built Sample.create_event)
                    (Sample.connected Sample.pg_close_fails Sample.create_event
                       (Sample.server []))
                    (Sample.after_connect Sample.pg_close_fails Sample.create_event
                       (Sample.server []))
                    (Sample.after_exists Sample.pg_close_fails Sample.create_event
                       (Sample.server []))
                    (Sample.after_create_role Sample.pg_close_fails
                       Sample.create_event (Sample.server []))
                    _
                    (Exn DriverError "connection already closed")
                    ltac:(reflexivity)
                    ltac:(reflexivity)
                    ltac:(reflexivity)));
      reflexivity.
  - apply (proj2 (close_failure_decides Sample.py Sample.pg_close_fails
                    Sample.delete_event (Sample.server ["app"])
                    (Sample.built Sample.delete_event)
                    (Sample.connected Sample.pg_close_fails Sample.delete_event
                       (Sample.server ["app"]))
                    (Sample.after_connect Sample.pg_close_fails Sample.delete_event
                       (Sample.server ["app"]))
                    (Sample.after_exists Sample.pg_close_fails Sample.delete_event
                       (Sample.server ["app"]))
                    (Sample.after_drop Sample.pg_close_fails
                       Sample.delete_event (Sample.server ["app"]))
                    _
                    (Exn DriverError "connection already closed")
                    ltac:(reflexivity)
                    ltac:(reflexivity)
                    ltac:(reflexivity)) (PStr "X"));
      reflexivity.
Defined.

Lemma mutation_error_reported_witness :
  create Sample.py (Sample.pg_racing false) Sample.create_event
    (Sample.server ["app"])
  = (inr (Response_init "FAILED"
            (PStr "Failed to create user, role app already exists") sentinel),
     St (Sample.PgWorld true ["app"] [])
        [Stmt select_sql [Lit (PStr "app")];
         Stmt create_sql [AsIs (PStr "app"); Lit (PStr "x")]]) /\
  delete Sample.py (Sample.pg_racing true) Sample.delete_event (Sample.server [])
  = (inr (Response_init "FAILED" (PStr "role app does not exist") (PStr "X")),
     St (Sample.PgWorld true [] [[]])
        [Stmt select_sql [Lit (PStr "app")]; Stmt drop_sql [AsIs (PStr "app")]]).
Proof.
  split.
  - apply (proj1 (mutation_error_reported Sample.py (Sample.pg_racing false)
                    Sample.create_event (Sample.server ["app"])
                    (Sample.built Sample.create_event)
                    (Sample.connected (Sample.pg_racing false) Sample.create_event
                       (Sample.server ["app"]))
                    (Sample.after_connect (Sample.pg_racing false)
                       Sample.create_event (Sample.server ["app"]))
                    (Sample.after_exists (Sample.pg_racing false)
                       Sample.create_event (Sample.server ["app"]))
                    (Sample.after_create_role (Sample.pg_racing false)
                       Sample.create_event (Sample.server ["app"]))
                    _
                    (Exn DriverError "role app already exists")
                    ltac:(reflexivity)
                    ltac:(reflexivity)
                    ltac:(reflexivity)));
      reflexivity.
  - apply (proj2 (mutation_error_reported Sample.py (Sample.pg_racing true)
                    Sample.delete_event (Sample.server [])
                    (Sample.built Sample.delete_event)
                    (Sample.connected (Sample.pg_racing true) Sample.delete_event
                       (Sample.server []))
                    (Sample.after_connect (Sample.pg_racing true)
                       Sample.delete_event (Sample.server []))
                    (Sample.after_exists (Sample.pg_racing true)
                       Sample.delete_event (Sample.server []))
                    (Sample.after_drop (Sample.pg_racing true)
                       Sample.delete_event (Sample.server []))
                    _
                    (Exn DriverError "role app does not exist")
                    ltac:(reflexivity)
                    ltac:(reflexivity)
                    ltac:(reflexivity)) (PStr "X"));
      reflexivity.
Defined.

Lemma add_defaults_idempotent_witness :
  add_defaults (Sample.value ∅ (add_defaults (Sample.props (PDict Sample.db_plain))))
    = inr (Sample.value ∅ (add_defaults (Sample.props (PDict Sample.db_plain)))) /\
  Sample.value ∅ (add_defaults (Sample.props (PDict Sample.db_plain))) !! "User"
    = Sample.props (PDict Sample.db_plain) !! "User".
Proof.
  destruct (add_defaults_idempotent (Sample.props (PDict Sample.db_plain))
              (Sample.value ∅ (add_defaults (Sample.props (PDict Sample.db_plain))))
              ltac:(reflexivity))
    as (Hidem & Hother & _).
  split; [exact Hidem | by apply Hother].
Defined.

Lemma check_valid_order_host_first_witness :
  check_valid Sample.py
    (Sample.descriptor (PStr "true")
       (list_to_map [("User", PStr "admin"); ("Password", PStr "y");
                     ("DBName", PStr "appdb")]))
  = raise ValueError "Host is required in Database".
Proof.
  apply (proj2 (check_valid_order_host_first Sample.py) _
           (list_to_map [("User", PStr "admin"); ("Password", PStr "y");
                         ("DBName", PStr "appdb")])
           (PStr "app") (PStr "x"));
    reflexivity.
Defined.

Lemma init_merges_properties_witness :
  Sample.built Sample.delete_event !! "ResourceProperties" = None /\
  Sample.built Sample.delete_event !! "User" = Some (PStr "app") /\
  Sample.built Sample.delete_event !! "PhysicalResourceId"
    = Sample.delete_event !! "PhysicalResourceId".
Proof.
  destruct (init_merges_properties Sample.py Sample.delete_event
              (Sample.props (PDict Sample.db_plain))
              (Sample.built Sample.delete_event)
              ltac:(reflexivity) ltac:(reflexivity))
    as (Hrp & Hprop & Henv).
  split; [exact Hrp|]. split.
  - apply Hprop; [reflexivity | discriminate..].
  - apply Henv; [reflexivity | discriminate..].
Defined.

Lemma init_defaults_witness :
  with_database (Sample.built Sample.create_event) = inr true /\
  port (Sample.built Sample.create_event) = inr (PInt 5432).
Proof.
  destruct (init_defaults Sample.py Sample.create_event
              (Sample.props (PDict Sample.db_plain)) Sample.db_plain
              (Sample.built Sample.create_event)
              ltac:(reflexivity) ltac:(reflexivity)
              ltac:(reflexivity) ltac:(reflexivity)
              ltac:(reflexivity) ltac:(reflexivity))
    as (Hwd & Hport & _).
  split; [exact Hwd | exact Hport].
Defined.

Lemma allow_overwrite_iff_identity_witness :
  allow_overwrite Sample.py (Sample.descriptor_of (PStr "true") "db1" 5432 "app")
    = inr false /\
  allow_overwrite Sample.py
    (<["PhysicalResourceId" := PStr "postgresql:db1:5432:app?user=app"]>
       (Sample.descriptor_of (PStr "true") "db1" 5432 "app"))
    = inr true.
Proof.
  destruct (allow_overwrite_iff_identity Sample.py
              (Sample.descriptor_of (PStr "true") "db1" 5432 "app"))
    as (Hnone & Hid).
  split.
  - apply Hnone. reflexivity.
  - apply (Hid "postgresql:db1:5432:app?user=app"). reflexivity.
Defined.

Lemma connect_info_from_database_witness :
  get_connect_info
    (<["User" := PStr "other"]>
       (Sample.descriptor_of (PStr "true") "db1" 5432 "app"))
  = get_connect_info (Sample.descriptor_of (PStr "true") "db1" 5432 "app").
Proof.
  apply (proj2 (connect_info_from_database Sample.py)). discriminate.
Defined.

(** ** The existence check against the catalog *)

Section Catalog.

Context {W C K : Type}.
Variable py : interp.
Variable pg : driver W C K.




End Catalog.




